(** * news-scrapper: the extraction-and-classification pipeline of [main.py]

    A shallow embedding of [NewsScraper] (file [main.py]) and of the Python
    library functions it calls, followed by the properties of the pipeline.

    Text is modelled by [string] (sequences of 8-bit characters).  The
    embedding of [str.lower], of the class [\d] and of [unquote] is the
    ASCII one: it is exact on ASCII text, and on percent-escapes below
    [%80]; the properties that depend on it carry the hypothesis that the
    texts are ASCII.

    The methods of [NewsScraper] are computations over an explicit state (the
    browser, the files written, the log, the standard output) that end with a
    result or with an exception.  What the program cannot decide (the page,
    the library calls that fail) is a parameter, the [world]; a property
    stated for every world holds whatever the site and the libraries do. *)

From Stdlib Require Import Ascii String.
From stdpp Require Import base list strings gmap pretty.

Local Open Scope nat_scope.

(** ** Python [str] methods used by the scraper *)

Module PyStr.

(** ['A' <= c <= 'Z'] *)
Definition is_upper (c : ascii) : bool :=
  (65 <=? nat_of_ascii c) && (nat_of_ascii c <=? 90).

Definition lower_char (c : ascii) : ascii :=
  if is_upper c then ascii_of_nat (nat_of_ascii c + 32) else c.

(** [s.isascii()]: every character is below 128. *)
Fixpoint is_ascii (s : string) : bool :=
  match s with
  | EmptyString => true
  | String c s' => (nat_of_ascii c <? 128) && is_ascii s'
  end.

(** [s.lower()] on ASCII text: the letters [A] to [Z] are lowered, the
    length is kept.  Outside ASCII [str.lower] follows Unicode, which this
    definition does not; the properties that rest on it are stated for
    ASCII text. *)
Fixpoint lower (s : string) : string :=
  match s with
  | EmptyString => EmptyString
  | String c s' => String (lower_char c) (lower s')
  end.

(** [s.startswith(sub)] *)
Fixpoint startswith (s sub : string) {struct sub} : bool :=
  match sub, s with
  | EmptyString, _ => true
  | String a sub', String b s' => Ascii.eqb a b && startswith s' sub'
  | String _ _, EmptyString => false
  end.

(** The scan behind [s.count(sub)] for a non-empty [sub]: left to right,
    a match at the current position is counted and the scan resumes
    right after it ([skip] is the number of characters of the last
    counted match still to be stepped over). *)
Fixpoint count_scan (sub : string) (skip : nat) (s : string) : nat :=
  match s with
  | EmptyString => 0
  | String _ s' =>
      match skip with
      | S k => count_scan sub k s'
      | O =>
          if startswith s sub
          then S (count_scan sub (String.length sub - 1) s')
          else count_scan sub 0 s'
      end
  end.

(** [s.count(sub)]: the number of non-overlapping occurrences of [sub];
    an empty [sub] occurs between all characters, [len(s) + 1] times. *)
Definition count (s sub : string) : nat :=
  match sub with
  | EmptyString => S (String.length s)
  | String _ _ => count_scan sub 0 s
  end.

(** [s.replace(old, new)] for one-character [old] and [new] *)
Fixpoint replace_char (old new : ascii) (s : string) : string :=
  match s with
  | EmptyString => EmptyString
  | String c s' =>
      String (if Ascii.eqb c old then new else c) (replace_char old new s')
  end.

(** [s.split(sep)] for a one-character [sep]: never empty, one more
    piece than there are separators. *)
Fixpoint split (sep : ascii) (s : string) : list string :=
  match s with
  | EmptyString => [EmptyString]
  | String c s' =>
      if Ascii.eqb c sep then EmptyString :: split sep s'
      else match split sep s' with
           | piece :: rest => String c piece :: rest
           | [] => [String c EmptyString]
           end
  end.

(** [s.split(sep, 1)]: [None] when [sep] does not occur (the result has
    one element), otherwise the text before and after the first [sep]. *)
Fixpoint split_once (sep : ascii) (s : string) : option (string * string) :=
  match s with
  | EmptyString => None
  | String c s' =>
      if Ascii.eqb c sep then Some (EmptyString, s')
      else match split_once sep s' with
           | Some (before, after) => Some (String c before, after)
           | None => None
           end
  end.

(** [l[-1]] on the result of [split], which is never empty (the default
    is not returned). *)
Definition last_piece (l : list string) : string := List.last l EmptyString.

End PyStr.

(** ** The phrase count of [extract_news] (line 103) *)

Module Count.

(** [title.lower().count(p.lower()) + description.lower().count(p.lower())] *)
Definition count_search_phrases (title description search_phrase : string) : nat :=
  PyStr.count (PyStr.lower title) (PyStr.lower search_phrase)
  + PyStr.count (PyStr.lower description) (PyStr.lower search_phrase).

End Count.

(** ** Case-insensitive occurrences, as the specification words them *)

Module CountSpec.

(** The letters that have two cases: the alphabet in upper case and in
    lower case, letter for letter. *)
Definition upper_case : string := "ABCDEFGHIJKLMNOPQRSTUVWXYZ".
Definition lower_case : string := "abcdefghijklmnopqrstuvwxyz".
Definition letters : list (ascii * ascii) :=
  List.combine (list_ascii_of_string upper_case) (list_ascii_of_string lower_case).

(** Two characters are the same up to case: equal, or the two forms of one
    letter. *)
Definition same_letter (c d : ascii) : bool :=
  Ascii.eqb c d
  || existsb (fun p : ascii * ascii =>
                (Ascii.eqb c p.1 && Ascii.eqb d p.2)
                || (Ascii.eqb c p.2 && Ascii.eqb d p.1)) letters.

Fixpoint eq_ci (a b : string) : bool :=
  match a, b with
  | EmptyString, EmptyString => true
  | String c a', String d b' => same_letter c d && eq_ci a' b'
  | _, _ => false
  end.

(** The phrase occurs in [text] at index [i], case ignored. *)
Definition occurs_at (phrase text : string) (i : nat) : bool :=
  (i + String.length phrase <=? String.length text)
  && eq_ci (String.substring i (String.length phrase) text) phrase.

(** All indices at which the phrase occurs, ascending. *)
Definition occurrences (phrase text : string) : list nat :=
  List.filter (occurs_at phrase text) (List.seq 0 (S (String.length text))).

(** Occurrences counted left to right, one that overlaps the previously
    counted one being passed over ([free] is the first index not covered
    by a counted occurrence). *)
Fixpoint count_disjoint (width free : nat) (ps : list nat) : nat :=
  match ps with
  | [] => 0
  | p :: ps' =>
      if free <=? p then S (count_disjoint width (p + width) ps')
      else count_disjoint width free ps'
  end.

Definition occurrence_count (phrase text : string) : nat :=
  count_disjoint (String.length phrase) 0 (occurrences phrase text).

(** The occurrences that [count_disjoint] counts. *)
Fixpoint pick_disjoint (width free : nat) (ps : list nat) : list nat :=
  match ps with
  | [] => []
  | p :: ps' =>
      if free <=? p then p :: pick_disjoint width (p + width) ps'
      else pick_disjoint width free ps'
  end.

(** A family of pairwise disjoint occurrences, given by ascending start
    indices: each is an occurrence and starts at or after [lo], the next
    one not before the end of this one. *)
Fixpoint disjoint_occurrences (phrase text : string) (lo : nat) (ps : list nat) : Prop :=
  match ps with
  | [] => True
  | p :: ps' =>
      lo <= p /\ occurs_at phrase text p = true
      /\ disjoint_occurrences phrase text (p + String.length phrase) ps'
  end.

End CountSpec.

(** ** Regular expressions: the fragment of [re] used by [check_for_money] *)

Module Re.

(** Character sets: a literal, the class [\d], a bracket union. *)
Inductive cset : Type :=
| Lit (c : ascii)
| Digit
| Union (a b : cset).

Definition is_digit (c : ascii) : bool :=
  (48 <=? nat_of_ascii c) && (nat_of_ascii c <=? 57).

Fixpoint cset_mem (cs : cset) (c : ascii) : bool :=
  match cs with
  | Lit a => Ascii.eqb a c
  | Digit => is_digit c
  | Union a b => cset_mem a c || cset_mem b c
  end.

Inductive regex : Type :=
| Void
| Eps
| Sym (cs : cset)
| Cat (r1 r2 : regex)
| Alt (r1 r2 : regex)
| Star (r : regex).

(** [r+], [r?], [r{0,n}] and a literal word, by the usual expansions. *)
Definition Plus (r : regex) : regex := Cat r (Star r).
Definition Opt (r : regex) : regex := Alt Eps r.
Fixpoint Upto (n : nat) (r : regex) : regex :=
  match n with
  | O => Eps
  | S k => Opt (Cat r (Upto k r))
  end.
Fixpoint Word (w : string) : regex :=
  match w with
  | EmptyString => Eps
  | String c w' => Cat (Sym (Lit c)) (Word w')
  end.

(** The language of a pattern. *)
Inductive matches : regex -> string -> Prop :=
| matches_eps : matches Eps EmptyString
| matches_sym cs c : cset_mem cs c = true -> matches (Sym cs) (String c EmptyString)
| matches_cat r1 r2 s1 s2 :
    matches r1 s1 -> matches r2 s2 -> matches (Cat r1 r2) (s1 +:+ s2)
| matches_alt_l r1 r2 s : matches r1 s -> matches (Alt r1 r2) s
| matches_alt_r r1 r2 s : matches r2 s -> matches (Alt r1 r2) s
| matches_star_nil r : matches (Star r) EmptyString
| matches_star_app r s1 s2 :
    matches r s1 -> matches (Star r) s2 -> matches (Star r) (s1 +:+ s2).

(** Some substring of [text] is in the language of [r]. *)
Definition found_in (r : regex) (text : string) : Prop :=
  exists before m after, text = before +:+ m +:+ after /\ matches r m.

(** Does the pattern match the empty string? *)
Fixpoint nullable (r : regex) : bool :=
  match r with
  | Void => false
  | Eps => true
  | Sym _ => false
  | Cat r1 r2 => nullable r1 && nullable r2
  | Alt r1 r2 => nullable r1 || nullable r2
  | Star _ => true
  end.

(** What is left of the pattern once [c] has been read. *)
Fixpoint deriv (c : ascii) (r : regex) : regex :=
  match r with
  | Void => Void
  | Eps => Void
  | Sym cs => if cset_mem cs c then Eps else Void
  | Cat r1 r2 =>
      if nullable r1 then Alt (Cat (deriv c r1) r2) (deriv c r2)
      else Cat (deriv c r1) r2
  | Alt r1 r2 => Alt (deriv c r1) (deriv c r2)
  | Star r1 => Cat (deriv c r1) (Star r1)
  end.

(** [re.match(r, s) is not None]: some prefix of [s] matches. *)
Fixpoint match_at_start (r : regex) (s : string) : bool :=
  nullable r ||
  match s with
  | EmptyString => false
  | String c s' => match_at_start (deriv c r) s'
  end.

(** [re.search(r, s) is not None]: a match starts at some index of [s],
    the end of the string included. *)
Fixpoint search (r : regex) (s : string) : bool :=
  match_at_start r s ||
  match s with
  | EmptyString => false
  | String _ s' => search r s'
  end.

End Re.

(** ** Python exceptions and results *)

Module Py.

(** The exceptions the scraper meets, all subclasses of [Exception]:
    [ValueError] and [IndexError] are raised by Python itself, [LibraryError]
    stands for whatever the browser and spreadsheet libraries raise. *)
Inductive exn : Type :=
| ValueError (msg : string)
| IndexError (msg : string)
| LibraryError (msg : string).

(** [str(e)] *)
Definition exn_str (e : exn) : string :=
  match e with
  | ValueError m | IndexError m | LibraryError m => m
  end.

Inductive result (A : Type) : Type :=
| Ok (a : A)
| Raise (e : exn).
Arguments Ok {A} a.
Arguments Raise {A} e.

End Py.

(** ** [urllib.parse]: [urlparse(url).query], [parse_qs], [unquote] *)

Module Url.
Import Py.

Definition is_alpha (c : ascii) : bool :=
  let n := nat_of_ascii c in
  ((65 <=? n) && (n <=? 90)) || ((97 <=? n) && (n <=? 122)).

(** [scheme_chars]: letters, digits and [+-.] *)
Definition is_scheme_char (c : ascii) : bool :=
  is_alpha c || Re.is_digit c
  || Ascii.eqb c "+" || Ascii.eqb c "-" || Ascii.eqb c ".".

Fixpoint all_chars (f : ascii -> bool) (s : string) : bool :=
  match s with
  | EmptyString => true
  | String c s' => f c && all_chars f s'
  end.

Fixpoint contains_char (c : ascii) (s : string) : bool :=
  match s with
  | EmptyString => false
  | String d s' => Ascii.eqb d c || contains_char c s'
  end.

(** C0 control characters and the space, stripped from the left of a URL *)
Definition is_c0_or_space (c : ascii) : bool := nat_of_ascii c <=? 32.

Fixpoint lstrip (f : ascii -> bool) (s : string) : string :=
  match s with
  | EmptyString => EmptyString
  | String c s' => if f c then lstrip f s' else s
  end.

(** tab, line feed and carriage return are removed from a URL *)
Definition is_unsafe (c : ascii) : bool :=
  Ascii.eqb c "009" || Ascii.eqb c "010" || Ascii.eqb c "013".

Fixpoint remove_chars (f : ascii -> bool) (s : string) : string :=
  match s with
  | EmptyString => EmptyString
  | String c s' => if f c then remove_chars f s' else String c (remove_chars f s')
  end.

(** What follows [scheme:] when the URL starts with a scheme, the URL
    itself otherwise. *)
Definition after_scheme (url : string) : string :=
  match PyStr.split_once ":" url with
  | Some (String c0 scheme', rest) =>
      if is_alpha c0 && all_chars is_scheme_char scheme' then rest else url
  | _ => url
  end.

(** The text up to the first of [/], [?], [#]. *)
Fixpoint upto_delim (s : string) : string :=
  match s with
  | EmptyString => EmptyString
  | String c s' =>
      if Ascii.eqb c "/" || Ascii.eqb c "?" || Ascii.eqb c "#" then EmptyString
      else String c (upto_delim s')
  end.

(** The network location: what follows a leading [//]. *)
Definition netloc (rest : string) : string :=
  match rest with
  | String "/" (String "/" s) => upto_delim s
  | _ => EmptyString
  end.

(** The query: the fragment (from the first [#]) is cut off, the query is
    what follows the first [?] of the remainder. *)
Definition query_of (s : string) : string :=
  let no_fragment :=
    match PyStr.split_once "#" s with
    | Some (before, _) => before
    | None => s
    end in
  match PyStr.split_once "?" no_fragment with
  | Some (_, q) => q
  | None => EmptyString
  end.

(** The query of [urlparse(url)], and the [ValueError] that [urlparse]
    raises when the network location has a square bracket without its
    partner.  This is not all of [urlparse]: it also validates a host written
    in square brackets, which [Lib.urlparse] adds. *)
Definition urlparse_query (url : string) : result string :=
  let url := remove_chars is_unsafe (lstrip is_c0_or_space url) in
  let rest := after_scheme url in
  let host := netloc rest in
  if xorb (contains_char "[" host) (contains_char "]" host)
  then Raise (ValueError "Invalid IPv6 URL")
  else Ok (query_of rest).

(** The network location of a URL, as [urlparse] finds it. *)
Definition host (url : string) : string :=
  netloc (after_scheme (remove_chars is_unsafe (lstrip is_c0_or_space url))).

Definition hex_value (c : ascii) : option nat :=
  let n := nat_of_ascii c in
  if (48 <=? n) && (n <=? 57) then Some (n - 48)
  else if (65 <=? n) && (n <=? 70) then Some (n - 55)
  else if (97 <=? n) && (n <=? 102) then Some (n - 87)
  else None.

(** [unquote(s)]: every [%XX] with two hexadecimal digits becomes the
    character of that code; any other [%] stays.  This is [unquote] as long
    as the characters decoded are below 128; from [%80] up Python decodes the
    bytes as UTF-8, which is not modelled: the properties that name the result
    ask for it to be ASCII. *)
Fixpoint unquote (s : string) : string :=
  match s with
  | EmptyString => EmptyString
  | String c tail =>
      if Ascii.eqb c "%" then
        match tail with
        | String h1 (String h2 rest) =>
            match hex_value h1, hex_value h2 with
            | Some a, Some b => String (ascii_of_nat (16 * a + b)) (unquote rest)
            | _, _ => String c (unquote tail)
            end
        | _ => String c (unquote tail)
        end
      else String c (unquote tail)
  end.

(** A name or a value of a query string: [+] stands for a space, then
    percent-escapes are decoded. *)
Definition decode_component (s : string) : string :=
  unquote (PyStr.replace_char "+" " " s).

(** One [name=value] field of [parse_qsl]: an empty field, a field without
    [=] and a field with a blank value are passed over
    ([keep_blank_values] and [strict_parsing] are off). *)
Definition parse_field (name_value : string) : option (string * string) :=
  match name_value with
  | EmptyString => None
  | _ =>
      match PyStr.split_once "=" name_value with
      | None => None
      | Some (name, value) =>
          match value with
          | EmptyString => None
          | _ => Some (decode_component name, decode_component value)
          end
      end
  end.

(** [parse_qsl(qs)] *)
Definition parse_qsl (qs : string) : list (string * string) :=
  omap parse_field (PyStr.split "&" qs).

(** [parse_qs(qs)]: the values of each name, in the order they appear. *)
Definition parse_qs_add (d : gmap string (list string)) (nv : string * string)
  : gmap string (list string) :=
  match d !! nv.1 with
  | Some values => <[nv.1 := values ++ [nv.2]]> d
  | None => <[nv.1 := [nv.2]]> d
  end.

Definition parse_qs (qs : string) : gmap string (list string) :=
  foldl parse_qs_add ∅ (parse_qsl qs).

End Url.

(** ** The [url] parameter of a query string, as the specification words it *)

Module UrlSpec.

(** [field] is [name=raw] with a name that reads [url] once decoded and a
    value that is not blank. *)
Definition url_field (field raw : string) : Prop :=
  exists name,
    field = name +:+ "=" +:+ raw
    /\ Url.contains_char "=" name = false
    /\ Url.decode_component name = "url"
    /\ raw <> EmptyString.

(** [raw] is the raw value of the first [url] parameter of the query [q]. *)
Definition url_parameter (q raw : string) : Prop :=
  exists before field after,
    PyStr.split "&" q = before ++ field :: after
    /\ url_field field raw
    /\ List.Forall (fun f => forall r, ~ url_field f r) before.

(** The query has no [url] parameter. *)
Definition no_url_parameter (q : string) : Prop :=
  List.Forall (fun f => forall r, ~ url_field f r) (PyStr.split "&" q).


(** The values that a list of decoded pairs gives to the name [k]. *)
Fixpoint values_of (k : string) (pairs : list (string * string)) : list string :=
  match pairs with
  | [] => []
  | (n, v) :: rest => if decide (n = k) then v :: values_of k rest else values_of k rest
  end.


End UrlSpec.

(** ** [os.path.join] (POSIX) *)

Module OsPath.

Fixpoint endswith_sep (s : string) : bool :=
  match s with
  | EmptyString => false
  | String c EmptyString => Ascii.eqb c "/"
  | String _ s' => endswith_sep s'
  end.

Definition join (a b : string) : string :=
  match b with
  | String "/" _ => b
  | _ =>
      match a with
      | EmptyString => b
      | _ => if endswith_sep a then a +:+ b else a +:+ "/" +:+ b
      end
  end.

End OsPath.

(** ** The world outside the program, and the program's state *)

Module Sys.
Import Py.

(** Cell values of the spreadsheet: the values of the article dictionary. *)
Inductive pyval : Type :=
| VStr (s : string)
| VNone
| VInt (n : Z)
| VBool (b : bool).

Abbreviation row := (list pyval).

(** A page element: its visible text and its attributes. *)
Record element : Type := Element {
  el_text : string;
  el_attrs : list (string * string)
}.

(** What the program does not control: the page the search leads to (the
    first element each locator matches on the whole page, if any), which
    calls of the browser and spreadsheet libraries fail and with which
    exception, the working directory, and what [urlparse] raises for a host
    written in square brackets (its check of IPv6 and IPvFuture literals is
    not modelled: [bracketed_host_error] stands for it). *)
Record world : Type := World {
  cwd : string;
  open_browser_error : option exn;
  click_error : option exn;
  input_error : option exn;
  press_error : option exn;
  find : string -> option element;
  go_to_error : string -> option exn;
  screenshot_error : string -> option exn;
  create_workbook_error : option exn;
  append_rows_error : option exn;
  save_workbook_error : option exn;
  close_workbook_error : option exn;
  close_browser_error : option exn;
  bracketed_host_error : string -> option exn
}.

(** A file written: a saved workbook, or the screenshot taken while the
    browser was at [page] (the URL it had last been sent to). *)
Inductive file : Type :=
| Workbook (rows : list row)
| Screenshot (page : option string).

Inductive level : Type := INFO | WARNING | ERROR.

(** The state: whether a browser session is open, the URL the browser was
    last sent to ([location]: the argument of [open_available_browser] or
    [go_to]; the browser library may complete it with a scheme before it
    loads the page), the files written, the log and the standard output. *)
Record state : Type := State {
  browser_open : bool;
  location : option string;
  files : gmap string file;
  log : list (level * string);
  stdout : list string
}.

Definition initial : state :=
  {| browser_open := false; location := None; files := ∅; log := []; stdout := [] |}.

(** Computations: a result or an exception, and the state left behind. *)
Definition M (A : Type) : Type := state -> result A * state.

Definition ret {A} (a : A) : M A := fun st => (Ok a, st).

Definition raise {A} (e : exn) : M A := fun st => (Raise e, st).

Definition bind {A B} (m : M A) (k : A -> M B) : M B :=
  fun st =>
    match m st with
    | (Ok a, st') => k a st'
    | (Raise e, st') => (Raise e, st')
    end.

(** [try: body  except Exception as e: handler] *)
Definition try_except {A} (body : M A) (handler : exn -> M A) : M A :=
  fun st =>
    match body st with
    | (Ok a, st') => (Ok a, st')
    | (Raise e, st') => handler e st'
    end.

(** [try: body  finally: final]: [final] runs on both exits; the outcome of
    [body] stands unless [final] itself raises. *)
Definition try_finally {A} (body : M A) (final : M unit) : M A :=
  fun st =>
    match body st with
    | (r, st') =>
        match final st' with
        | (Ok _, st'') => (r, st'')
        | (Raise e, st'') => (Raise e, st'')
        end
    end.

(** An outcome decided by the world. *)
Definition outcome (error : option exn) : M unit :=
  match error with
  | Some e => raise e
  | None => ret tt
  end.

Definition lift {A} (r : result A) : M A := fun st => (r, st).

Definition modify (f : state -> state) : M unit := fun st => (Ok tt, f st).

Definition get_location : M (option string) := fun st => (Ok (location st), st).

Definition set_browser (open : bool) (url : option string) (st : state) : state :=
  {| browser_open := open; location := url; files := files st;
     log := log st; stdout := stdout st |}.

Definition write_file (path : string) (f : file) (st : state) : state :=
  {| browser_open := browser_open st; location := location st;
     files := <[path := f]> (files st); log := log st; stdout := stdout st |}.

Definition add_log (l : level) (msg : string) (st : state) : state :=
  {| browser_open := browser_open st; location := location st;
     files := files st; log := log st ++ [(l, msg)]; stdout := stdout st |}.

Definition add_stdout (msg : string) (st : state) : state :=
  {| browser_open := browser_open st; location := location st;
     files := files st; log := log st; stdout := stdout st ++ [msg] |}.

End Sys.

Declare Scope py_scope.
Delimit Scope py_scope with py.
Notation "x <- m ;; k" := (Sys.bind m (fun x => k))
  (at level 100, m at next level, right associativity) : py_scope.
Notation "m ;; k" := (Sys.bind m (fun _ => k))
  (at level 100, right associativity) : py_scope.

(** ** The libraries: logging, RPA.Browser.Selenium, RPA.Excel.Files *)

Module Lib.
Import Py Sys.
Local Open Scope py_scope.

Definition log_info (msg : string) : M unit := modify (add_log INFO msg).
Definition log_warning (msg : string) : M unit := modify (add_log WARNING msg).
Definition log_error (msg : string) : M unit := modify (add_log ERROR msg).
Definition print (msg : string) : M unit := modify (add_stdout msg).

Definition not_found (locator : string) : exn :=
  LibraryError ("Element with locator '" +:+ locator +:+ "' not found.").

Definition open_available_browser (w : world) (url : string) : M unit :=
  outcome (open_browser_error w) ;;
  modify (set_browser true (Some url)).

Definition click_element (w : world) (locator : string) : M unit :=
  outcome (click_error w).

Definition input_text (w : world) (locator text : string) : M unit :=
  outcome (input_error w).

Definition press_keys (w : world) (locator key : string) : M unit :=
  outcome (press_error w).

(** A lookup raises when no element matches the locator. *)
Definition find_element (w : world) (locator : string) : M element :=
  match find w locator with
  | Some el => ret el
  | None => raise (not_found locator)
  end.

Fixpoint assoc (k : string) (l : list (string * string)) : option string :=
  match l with
  | [] => None
  | (k', v) :: l' => if String.eqb k' k then Some v else assoc k l'
  end.

(** [None] when the element has no such attribute. *)
Definition get_element_attribute (w : world) (locator attribute : string)
  : M (option string) :=
  el <- find_element w locator ;;
  ret (assoc attribute (el_attrs el)).

Definition get_text (w : world) (locator : string) : M string :=
  el <- find_element w locator ;;
  ret (el_text el).

(** The browser is sent to [url]: the state records the URL it was given,
    not the address of the page that is then loaded. *)
Definition go_to (w : world) (url : string) : M unit :=
  outcome (go_to_error w url) ;;
  modify (set_browser true (Some url)).

(** The page shown is saved as an image under [filename].  A path that ends
    with [/] names a directory: no image can be written there, whatever the
    world. *)
Definition screenshot (w : world) (filename : string) : M unit :=
  (if OsPath.endswith_sep filename
   then raise (LibraryError ("Failed to save screenshot '" +:+ filename +:+ "'."))
   else outcome (screenshot_error w filename)) ;;
  page <- get_location ;;
  modify (write_file filename (Screenshot page)).

(** Closing quits the session that [open_available_browser] started, which
    may fail; in a world where the browser cannot be opened there is no
    session, and closing does nothing. *)
Definition close_browser (w : world) : M unit :=
  match open_browser_error w with
  | None => outcome (close_browser_error w)
  | Some _ => ret tt
  end ;;
  modify (set_browser false None).

(** [urlparse(url).query]: besides what [Url.urlparse_query] checks,
    [urlparse] validates a host written in square brackets. *)
Definition urlparse (w : world) (url : string) : M string :=
  query <- lift (Url.urlparse_query url) ;;
  (if Url.contains_char "[" (Url.host url)
   then outcome (bracketed_host_error w (Url.host url))
   else ret tt) ;;
  ret query.

(** The workbook that a [Files()] object holds. *)
Record workbook : Type := Book { wb_path : string; wb_rows : list row }.

Definition create_workbook (w : world) (path : string) : M workbook :=
  outcome (create_workbook_error w) ;;
  ret {| wb_path := path; wb_rows := [] |}.

Definition append_rows_to_worksheet (w : world) (wb : workbook) (rows : list row)
  : M workbook :=
  outcome (append_rows_error w) ;;
  ret {| wb_path := wb_path wb; wb_rows := wb_rows wb ++ rows |}.

Definition save_workbook (w : world) (wb : workbook) : M unit :=
  outcome (save_workbook_error w) ;;
  modify (write_file (wb_path wb) (Workbook (wb_rows wb))).

Definition close_workbook (w : world) (wb : workbook) : M unit :=
  outcome (close_workbook_error w).

(** [l[0]] *)
Definition first_item {A} (l : list A) : M A :=
  match l with
  | x :: _ => ret x
  | [] => raise (IndexError "list index out of range")
  end.

End Lib.

(** Unfolds the monad and the library calls of a computation. *)
Ltac run_py :=
  cbv beta iota delta
    [Sys.bind Sys.ret Sys.raise Sys.try_except Sys.try_finally Sys.outcome
     Sys.lift Sys.modify Sys.get_location
     Lib.log_info Lib.log_warning Lib.log_error Lib.print Lib.first_item
     Lib.open_available_browser Lib.click_element Lib.input_text Lib.press_keys
     Lib.find_element Lib.get_element_attribute Lib.get_text
     Lib.go_to Lib.screenshot Lib.close_browser Lib.urlparse
     Lib.create_workbook Lib.append_rows_to_worksheet Lib.save_workbook
     Lib.close_workbook].

(** Splits on the validation of a bracketed host in a goal about [urlparse]. *)
Ltac host_check :=
  match goal with
  | |- context [Url.contains_char "[" (Url.host ?u)] =>
      let Hb := fresh "Hb" in
      destruct (Url.contains_char "[" (Url.host u)) eqn:Hb;
      [let He := fresh "Hhost" in destruct (Sys.bracketed_host_error _ (Url.host u)) eqn:He|]
  end.

(** ** [main.py]: [Config] and [NewsScraper] *)

Module Config.

Definition SEARCH_URL : string := "https://www.latimes.com/".
Definition OUTPUT_DIR (w : Sys.world) : string := OsPath.join (Sys.cwd w) "output".
Definition LOG_FILE (w : Sys.world) : string := OsPath.join (OUTPUT_DIR w) "scraper.log".

End Config.

Module NewsScraper.
Import Py Sys Lib.
Local Open Scope py_scope.

(** An article: a dictionary, its keys in insertion order. *)
Abbreviation article := (list (string * pyval)).

Definition keys (a : article) : row := (fun kv => VStr kv.1) <$> a.
Definition values (a : article) : row := snd <$> a.

(** The [{url}] of an f-string *)
Definition format_url (url : option string) : string :=
  match url with
  | Some u => u
  | None => "None"
  end.

(** The pause of one second is left out. *)
Definition progress_indicator (step total : nat) : M unit :=
  let progress_message :=
    "Progress: " +:+ pretty step +:+ "/" +:+ pretty total +:+ " steps completed." in
  log_info progress_message ;;
  print progress_message.

Definition open_site (w : world) : M unit :=
  log_info ("Opening site: " +:+ Config.SEARCH_URL) ;;
  try_except
    (open_available_browser w Config.SEARCH_URL ;;
     log_info "Site opened successfully.")
    (fun e =>
       log_error ("Failed to open site: " +:+ exn_str e) ;;
       raise e).

Definition search_news (w : world) (search_phrase : string) : M unit :=
  log_info ("Searching for news with phrase: '" +:+ search_phrase +:+ "'") ;;
  try_except
    (click_element w "css:button[data-element='search-button']" ;;
     input_text w "css:input[data-element='search-form-input']" search_phrase ;;
     press_keys w "css:input[data-element='search-form-input']" "ENTER" ;;
     log_info "Search completed successfully." ;;
     progress_indicator 2 3)
    (fun e =>
       log_error ("Error during search: " +:+ exn_str e) ;;
       raise e).

(** [money_patterns] (line 167) *)
Definition money_patterns : list Re.regex :=
  [ (* \$\d[\d,]*\.?\d{0,2} *)
    Re.Cat (Re.Sym (Re.Lit "$"))
      (Re.Cat (Re.Sym Re.Digit)
         (Re.Cat (Re.Star (Re.Sym (Re.Union Re.Digit (Re.Lit ","))))
            (Re.Cat (Re.Opt (Re.Sym (Re.Lit ".")))
               (Re.Upto 2 (Re.Sym Re.Digit)))));
    (* \d+ dollars *)
    Re.Cat (Re.Plus (Re.Sym Re.Digit)) (Re.Word " dollars");
    (* \d+ USD *)
    Re.Cat (Re.Plus (Re.Sym Re.Digit)) (Re.Word " USD") ].

(** The loop of [check_for_money]: the first pattern found decides. *)
Fixpoint any_pattern (patterns : list Re.regex) (text : string) : bool :=
  match patterns with
  | [] => false
  | pattern :: rest =>
      if Re.search pattern text then true else any_pattern rest text
  end.

Definition check_for_money (title description : string) : M bool :=
  log_info "Checking for monetary values in the article." ;;
  let text := title +:+ " " +:+ description in
  if any_pattern money_patterns text then
    log_info "Monetary value found in the article." ;;
    ret true
  else
    log_info "No monetary values found in the article." ;;
    ret false.

Definition download_image (w : world) (url : option string) : M (option string) :=
  log_info ("Attempting to download image from URL: " +:+ format_url url) ;;
  try_except
    (match url with
     | Some (String _ _ as url) =>
         query <- urlparse w url ;;
         let query_params := Url.parse_qs query in
         match query_params !! "url" with
         | Some url_values =>
             url_value <- first_item url_values ;;
             let actual_image_url := Url.unquote url_value in
             go_to w actual_image_url ;;
             let image_name := PyStr.last_piece (PyStr.split "/" actual_image_url) in
             let image_path := OsPath.join (Config.OUTPUT_DIR w) image_name in
             screenshot w image_path ;;
             log_info ("Image downloaded successfully: " +:+ image_name) ;;
             ret (Some image_name)
         | None =>
             log_warning "No valid 'url' parameter found in image URL." ;;
             ret None
         end
     | _ =>
         log_warning "No URL provided for image download." ;;
         ret None
     end)
    (fun e =>
       log_error ("Error downloading image: " +:+ exn_str e) ;;
       ret None).

Fixpoint append_articles (w : world) (wb : workbook) (articles : list article)
  : M workbook :=
  match articles with
  | [] => ret wb
  | a :: rest =>
      wb' <- append_rows_to_worksheet w wb [values a] ;;
      append_articles w wb' rest
  end.

Definition save_to_excel (w : world) (articles : list article) : M unit :=
  log_info "Saving article data to Excel file." ;;
  try_except
    (let file_path := OsPath.join (Config.OUTPUT_DIR w) "news_data.xlsx" in
     excel <- create_workbook w file_path ;;
     first <- first_item articles ;;
     excel <- append_rows_to_worksheet w excel [keys first] ;;
     excel <- append_articles w excel articles ;;
     save_workbook w excel ;;
     close_workbook w excel ;;
     log_info ("Data saved successfully to " +:+ file_path) ;;
     progress_indicator 3 3)
    (fun e =>
       log_error ("Error saving data to Excel: " +:+ exn_str e) ;;
       raise e).

Definition image_cell (image_filename : option string) : pyval :=
  match image_filename with
  | Some name => VStr name
  | None => VNone
  end.

Definition extract_news (w : world) (search_phrase : string) : M unit :=
  log_info "Extracting the newest news article." ;;
  try_except
    (first_item <- find_element w "css:ul.search-results-module-results-menu > li:first-child" ;;
     image_url <- get_element_attribute w "css:img.image" "src" ;;
     title <- get_text w "css:h3.promo-title a.link" ;;
     description <- get_text w "css:p.promo-description" ;;
     date <- get_text w "css:p.promo-timestamp" ;;
     image_filename <- download_image w image_url ;;
     let count_search_phrases :=
       Count.count_search_phrases title description search_phrase in
     contains_money <- check_for_money title description ;;
     let article : article :=
       [ ("Title", VStr title);
         ("Date", VStr date);
         ("Description", VStr description);
         ("Image Filename", image_cell image_filename);
         ("Count of Search Phrases", VInt (Z.of_nat count_search_phrases));
         ("Contains Money", VBool contains_money) ] in
     log_info "Article extracted successfully." ;;
     save_to_excel w [article] ;;
     progress_indicator 3 3)
    (fun e =>
       log_error ("Error during extraction: " +:+ exn_str e) ;;
       raise e).

Definition run (w : world) (search_phrase : string) : M unit :=
  log_info "Starting the news scraping process..." ;;
  try_finally
    (try_except
       (progress_indicator 1 3 ;;
        open_site w ;;
        search_news w search_phrase ;;
        extract_news w search_phrase ;;
        log_info "News scraping process completed successfully.")
       (fun e =>
          log_error ("An error occurred during the scraping process: " +:+ exn_str e)))
    (close_browser w ;;
     log_info "Browser closed.").

(** [__main__] *)
Definition main (w : world) : M unit := run w "ship".

End NewsScraper.

(** ** Words of the specification about the scraper *)

Module ScraperSpec.
Import Sys.

(** The header row of the sheet. *)
Definition header : row :=
  [ VStr "Title"; VStr "Date"; VStr "Description"; VStr "Image Filename";
    VStr "Count of Search Phrases"; VStr "Contains Money" ].

(** The locators of the first result, of its image and of its captions. *)
Definition first_result : string :=
  "css:ul.search-results-module-results-menu > li:first-child".
Definition image : string := "css:img.image".
Definition title : string := "css:h3.promo-title a.link".
Definition description : string := "css:p.promo-description".
Definition date : string := "css:p.promo-timestamp".

(** The three ways the image step ends without an image: the URL is absent,
    its query string has no [url] parameter, the page of the resolved URL
    cannot be loaded. *)
Definition no_image (w : world) (url : option string) : Prop :=
  url = None
  \/ (exists u q, url = Some u /\ Url.urlparse_query u = Py.Ok q
                  /\ UrlSpec.no_url_parameter q)
  \/ (exists u q raw e,
        url = Some u /\ Url.urlparse_query u = Py.Ok q
        /\ UrlSpec.url_parameter q raw
        /\ go_to_error w (Url.unquote (Url.decode_component raw)) = Some e).

(** [urlparse] accepts the host of the URL: it is not written in square
    brackets, or its validation raises nothing. *)
Definition accepted (w : world) (url : string) : Prop :=
  Url.contains_char "[" (Url.host url) = true ->
  bracketed_host_error w (Url.host url) = None.

(** No call of the spreadsheet library fails. *)
Definition excel_works (w : world) : Prop :=
  create_workbook_error w = None /\ append_rows_error w = None
  /\ save_workbook_error w = None /\ close_workbook_error w = None.

(** The row of an article: its fields in the order of the header. *)
Definition article_row (phrase title date description : string)
    (image_filename : option string) : row :=
  [ VStr title; VStr date; VStr description;
    NewsScraper.image_cell image_filename;
    VInt (Z.of_nat (Count.count_search_phrases title description phrase));
    VBool (NewsScraper.any_pattern NewsScraper.money_patterns
             (title +:+ " " +:+ description)) ].

(** The text holds a dollar sign directly followed by a digit. *)
Definition dollar_sign_amount (text : string) : Prop :=
  exists before d after,
    text = before +:+ String "$" (String d after) /\ Re.is_digit d = true.

(** The text holds a digit directly followed by [unit]. *)
Definition amount_in (unit text : string) : Prop :=
  exists before d after,
    text = before +:+ String d (unit +:+ after) /\ Re.is_digit d = true.

(** The steps of a run: opening the site, the search, extraction (which
    ends with the saving of the sheet). *)
Definition steps (w : world) (phrase : string) : M unit :=
  (NewsScraper.open_site w ;;
   NewsScraper.search_news w phrase ;;
   NewsScraper.extract_news w phrase)%py.

(** The state in which the steps of a run start. *)
Definition started (st : state) : state :=
  add_stdout "Progress: 1/3 steps completed."
    (add_log INFO "Progress: 1/3 steps completed."
       (add_log INFO "Starting the news scraping process..." st)).

(** What closing the browser raises in a world: the error of quitting the
    session, if the browser could be opened at all. *)
Definition quit_error (w : world) : option Py.exn :=
  match open_browser_error w with
  | None => close_browser_error w
  | Some _ => None
  end.

(** The state a run leaves once the browser is closed. *)
Definition closed (st : state) : state :=
  add_log INFO "Browser closed." (set_browser false None st).

(** The file the sheet is saved to. *)
Definition sheet_path (w : world) : string :=
  OsPath.join (OsPath.join (cwd w) "output") "news_data.xlsx".

End ScraperSpec.

(** ** A results page and worlds used as examples *)

Module Example.
Import Sys.

Definition relay_url : string :=
  "https://relay.example/img?url=https%3A%2F%2Fcdn.example%2Fphoto.jpg".

(** A results page with one entry. *)
Definition page (src : option string) (locator : string) : option element :=
  if String.eqb locator "css:ul.search-results-module-results-menu > li:first-child"
  then Some (Element "Ship costs $1,200.50 A SHIP and a ship Nov. 4" [])
  else if String.eqb locator "css:img.image"
  then Some (Element "" (match src with Some u => [("src", u)] | None => [] end))
  else if String.eqb locator "css:h3.promo-title a.link"
  then Some (Element "Ship costs $1,200.50" [])
  else if String.eqb locator "css:p.promo-description"
  then Some (Element "A SHIP and a ship" [])
  else if String.eqb locator "css:p.promo-timestamp"
  then Some (Element "Nov. 4" [])
  else None.

(** The same page without its title. *)
Definition page_without_title (locator : string) : option element :=
  if String.eqb locator "css:h3.promo-title a.link" then None
  else page (Some relay_url) locator.

(** A world in which no library call fails. *)
Definition quiet (find : string -> option element) : world :=
  {| cwd := "/home/robot";
     open_browser_error := None; click_error := None;
     input_error := None; press_error := None;
     find := find;
     go_to_error := fun _ => None;
     screenshot_error := fun _ => None;
     create_workbook_error := None; append_rows_error := None;
     save_workbook_error := None; close_workbook_error := None;
     close_browser_error := None; bracketed_host_error := fun _ => None |}.

(** A world in which every page load fails. *)
Definition offline (find : string -> option element) : world :=
  {| cwd := "/home/robot";
     open_browser_error := None; click_error := None;
     input_error := None; press_error := None;
     find := find;
     go_to_error := fun _ => Some (Py.LibraryError "net::ERR_CONNECTION_REFUSED");
     screenshot_error := fun _ => None;
     create_workbook_error := None; append_rows_error := None;
     save_workbook_error := None; close_workbook_error := None;
     close_browser_error := None; bracketed_host_error := fun _ => None |}.

End Example.

(** * Properties *)

Section CountFacts.
Import PyStr CountSpec.

Lemma lower_char_code c :
  nat_of_ascii (lower_char c)
  = if is_upper c then nat_of_ascii c + 32 else nat_of_ascii c.
Proof.
  unfold lower_char. destruct (is_upper c) eqn:E; [|done].
  apply nat_ascii_embedding.
  unfold is_upper in E. apply andb_prop in E as [_ E%Nat.leb_le]. lia.
Qed.

Lemma ascii_listed c : c ∈ ascii_of_nat <$> seq 0 256.
Proof.
  apply list_elem_of_fmap. exists (nat_of_ascii c).
  split; [by rewrite ascii_nat_embedding|].
  apply elem_of_seq. pose proof (nat_ascii_bounded c). lia.
Qed.

(** The table of letters and the lowering of the code agree on every pair
    of characters (checked on the 256 by 256 of them). *)
Lemma same_letter_lower c d :
  same_letter c d = Ascii.eqb (lower_char c) (lower_char d).
Proof.
  assert (H : forallb
                (fun a => forallb
                   (fun b => Bool.eqb (same_letter a b)
                               (Ascii.eqb (lower_char a) (lower_char b)))
                   (ascii_of_nat <$> seq 0 256))
                (ascii_of_nat <$> seq 0 256) = true)
    by (vm_compute; reflexivity).
  rewrite forallb_forall in H.
  specialize (H c (proj1 (list_elem_of_In _ _) (ascii_listed c))).
  rewrite forallb_forall in H.
  specialize (H d (proj1 (list_elem_of_In _ _) (ascii_listed d))).
  by apply Bool.eqb_prop.
Qed.

Lemma length_lower s : String.length (lower s) = String.length s.
Proof. induction s; simpl; congruence. Qed.

Lemma lower_nonempty s : s <> EmptyString -> lower s <> EmptyString.
Proof. by destruct s. Qed.

End CountFacts.

Section CountRefinement.
Import PyStr CountSpec.

Lemma substring_0_0 s : String.substring 0 0 s = EmptyString.
Proof. by destruct s. Qed.

Lemma startswith_lower s p :
  startswith (lower s) (lower p) = occurs_at p s 0.
Proof.
  unfold occurs_at. revert s. induction p as [|a p IH]; intros s; simpl.
  - by rewrite substring_0_0.
  - destruct s as [|b s]; simpl; [done|].
    rewrite IH, same_letter_lower, (Ascii.eqb_sym (lower_char a)).
    simpl. destruct (String.length p <=? String.length s); simpl.
    + done.
    + by rewrite andb_false_r.
Qed.

Lemma occurs_at_S p c s i : occurs_at p (String c s) (S i) = occurs_at p s i.
Proof. done. Qed.

Lemma filter_seq_S (f : nat -> bool) a n :
  List.filter f (List.seq (S a) n)
  = List.map S (List.filter (fun i => f (S i)) (List.seq a n)).
Proof.
  revert a. induction n as [|n IH]; intros a; simpl; [done|].
  rewrite IH. by destruct (f (S a)).
Qed.

Lemma occurrences_String p c s :
  occurrences p (String c s)
  = (if occurs_at p (String c s) 0 then [0] else []) ++ List.map S (occurrences p s).
Proof.
  unfold occurrences.
  change (String.length (String c s)) with (S (String.length s)).
  change (List.seq 0 (S (S (String.length s))))
    with (0 :: List.seq 1 (S (String.length s))).
  cbn [List.filter]. rewrite (filter_seq_S _ 0).
  by destruct (occurs_at p (String c s) 0).
Qed.

Lemma occurrences_empty p : p <> EmptyString -> occurrences p EmptyString = [].
Proof. by destruct p. Qed.

Lemma count_disjoint_S w free ps :
  count_disjoint w (S free) (List.map S ps) = count_disjoint w free ps.
Proof.
  revert free. induction ps as [|q ps IH]; intros free; simpl; [done|].
  destruct (free <=? q); [|done].
  by rewrite <- IH.
Qed.

Lemma count_disjoint_0_S w ps :
  count_disjoint w 0 (List.map S ps) = count_disjoint w 0 ps.
Proof.
  destruct ps as [|q ps]; simpl; [done|].
  by rewrite count_disjoint_S.
Qed.

(** The scan over the lowered strings counts what the left-to-right
    selection counts on the case-insensitive occurrences. *)
Lemma count_scan_lower p s skip :
  p <> EmptyString ->
  count_scan (lower p) skip (lower s)
  = count_disjoint (String.length p) skip (occurrences p s).
Proof.
  intros Hp. revert skip. induction s as [|c s IH]; intros skip.
  - by rewrite occurrences_empty.
  - rewrite occurrences_String.
    change (lower (String c s)) with (String (lower_char c) (lower s)).
    cbn [count_scan].
    change (String (lower_char c) (lower s)) with (lower (String c s)).
    rewrite startswith_lower.
    destruct skip as [|k].
    + destruct (occurs_at p (String c s) 0); cbn [app].
      * cbn [count_disjoint Nat.leb]. rewrite IH, length_lower. f_equal.
        destruct p as [|a p]; [done|]. cbn [String.length Nat.add Nat.sub].
        by rewrite count_disjoint_S, Nat.sub_0_r.
      * by rewrite IH, count_disjoint_0_S.
    + rewrite IH.
      destruct (occurs_at p (String c s) 0); cbn [app count_disjoint Nat.leb];
        by rewrite count_disjoint_S.
Qed.

Lemma count_lower s p :
  p <> EmptyString ->
  count (lower s) (lower p) = occurrence_count p s.
Proof.
  intros Hp. unfold count, occurrence_count.
  rewrite <- count_scan_lower by done.
  destruct (lower p) eqn:E; [|done].
  by destruct p.
Qed.

End CountRefinement.

Section CountMaximal.
Import PyStr CountSpec.

Lemma length_pick_disjoint w free ps :
  List.length (pick_disjoint w free ps) = count_disjoint w free ps.
Proof.
  revert free. induction ps as [|q ps IH]; intros free; simpl; [done|].
  destruct (free <=? q); simpl; by rewrite IH.
Qed.

Lemma pick_disjoint_occurrences p t free ps :
  List.Forall (fun q => occurs_at p t q = true) ps ->
  disjoint_occurrences p t free (pick_disjoint (String.length p) free ps).
Proof.
  intros H. revert free. induction H as [|q ps Hq _ IH]; intros free; simpl; [done|].
  destruct (free <=? q) eqn:E; [|done].
  apply Nat.leb_le in E. simpl. auto.
Qed.

Lemma occurrences_occur p t :
  List.Forall (fun q => occurs_at p t q = true) (occurrences p t).
Proof.
  apply List.Forall_forall. intros q Hq.
  by apply List.filter_In in Hq as [_ Hq].
Qed.

Lemma disjoint_occurrences_weaken p t lo lo' qs :
  lo' <= lo -> disjoint_occurrences p t lo qs -> disjoint_occurrences p t lo' qs.
Proof. destruct qs as [|q qs]; simpl; [done|]. intros ? (? & ? & ?). repeat split; [lia|done..]. Qed.

Lemma disjoint_occurrences_skip p t lo qs :
  occurs_at p t lo = false ->
  disjoint_occurrences p t lo qs -> disjoint_occurrences p t (S lo) qs.
Proof.
  destruct qs as [|q qs]; simpl; [done|]. intros Hlo (Hq & Ho & Hqs).
  repeat split; [|done..].
  destruct (decide (q = lo)) as [->|]; [congruence|lia].
Qed.

(** No family of disjoint occurrences in the window scanned is larger
    than the number the left-to-right selection counts. *)
Lemma count_disjoint_bound p t n a free lo qs :
  p <> EmptyString ->
  a + n = S (String.length t) ->
  free <= lo -> a <= lo ->
  disjoint_occurrences p t lo qs ->
  List.length qs
  <= count_disjoint (String.length p) free
       (List.filter (occurs_at p t) (List.seq a n)).
Proof.
  intros Hp. assert (Hw : 1 <= String.length p) by (destruct p; [done|simpl; lia]).
  revert a free lo qs. induction n as [|n IH]; intros a free lo qs Han Hfree Ha Hqs.
  - destruct qs as [|q qs]; [done|]. destruct Hqs as (Hq & Ho & _).
    unfold occurs_at in Ho. apply andb_prop in Ho as [Ho%Nat.leb_le _]. lia.
  - cbn [List.seq List.filter].
    destruct (occurs_at p t a) eqn:Ea.
    + cbn [count_disjoint]. destruct (free <=? a) eqn:Efree.
      * destruct qs as [|q qs]; [simpl; lia|].
        destruct Hqs as (Hq & Ho & Hqs). cbn [List.length].
        apply le_n_S. apply (IH (S a) _ (q + String.length p)); [lia..|done].
      * apply Nat.leb_gt in Efree. apply (IH (S a) _ lo); [lia..|done].
    + destruct (decide (lo = a)) as [->|Hne].
      * apply (IH (S a) _ (S a)); [lia..|].
        by apply disjoint_occurrences_skip.
      * apply (IH (S a) _ lo); [lia..|done].
Qed.

(** [count] on the lowered strings is the largest number of pairwise
    disjoint case-insensitive occurrences. *)
Lemma count_lower_maximal s p :
  p <> EmptyString ->
  (exists qs, disjoint_occurrences p s 0 qs
              /\ List.length qs = count (lower s) (lower p))
  /\ (forall qs, disjoint_occurrences p s 0 qs ->
                 List.length qs <= count (lower s) (lower p)).
Proof.
  intros Hp. rewrite count_lower by done. unfold occurrence_count. split.
  - exists (pick_disjoint (String.length p) 0 (occurrences p s)). split.
    + apply pick_disjoint_occurrences, occurrences_occur.
    + apply length_pick_disjoint.
  - intros qs Hqs. by apply (count_disjoint_bound p s _ 0 0 0).
Qed.

End CountMaximal.

Section StringFacts.

Lemma app_String c (s t : string) : String c s +:+ t = String c (s +:+ t).
Proof. done. Qed.

Lemma app_empty_r (s : string) : s +:+ EmptyString = s.
Proof. induction s as [|c s IH]; [done|]. by rewrite app_String, IH. Qed.

Lemma app_empty_l (s : string) : EmptyString +:+ s = s.
Proof. done. Qed.

Lemma app_assoc_str (s t u : string) : (s +:+ t) +:+ u = s +:+ t +:+ u.
Proof. induction s as [|c s IH]; [done|]. by rewrite !app_String, IH. Qed.

Lemma app_eq_empty (s t : string) :
  s +:+ t = EmptyString -> s = EmptyString /\ t = EmptyString.
Proof. by destruct s. Qed.

End StringFacts.

Section RegexFacts.
Import Re.

Lemma nullable_matches r : nullable r = true <-> matches r EmptyString.
Proof.
  induction r as [| |cs|r1 IH1 r2 IH2|r1 IH1 r2 IH2|r IH]; simpl.
  - split; [done|]. inversion 1.
  - split; [constructor|done].
  - split; [done|]. inversion 1.
  - rewrite andb_true_iff, IH1, IH2. split.
    + intros [H1 H2]. apply (matches_cat _ _ EmptyString EmptyString H1 H2).
    + inversion 1; subst.
      match goal with E : _ +:+ _ = EmptyString |- _ =>
        apply app_eq_empty in E as [-> ->] end.
      done.
  - rewrite orb_true_iff, IH1, IH2. split.
    + intros [H|H]; [by apply matches_alt_l|by apply matches_alt_r].
    + inversion 1; subst; auto.
  - split; [constructor|done].
Qed.

(** A non-empty match of [r*] starts with a non-empty match of [r]. *)
Lemma matches_star_String r0 s0 :
  matches r0 s0 ->
  forall r c s, r0 = Star r -> s0 = String c s ->
  exists s1 s2, s = s1 +:+ s2 /\ matches r (String c s1) /\ matches (Star r) s2.
Proof.
  induction 1 as [| | | | | |r' s1 s2 H1 _ H2 IH2]; intros q x t Er Et;
    try discriminate.
  injection Er as ->.
  destruct s1 as [|c1 s1].
  - apply (IH2 q x t); done.
  - rewrite app_String in Et. injection Et as -> <-.
    exists s1, s2. done.
Qed.

Lemma deriv_matches r c s : matches (deriv c r) s <-> matches r (String c s).
Proof.
  revert s. induction r as [| |cs|r1 IH1 r2 IH2|r1 IH1 r2 IH2|r IH]; intros s; simpl.
  - split; inversion 1.
  - split; inversion 1.
  - destruct (cset_mem cs c) eqn:E; split.
    + inversion 1; subst. by constructor.
    + inversion 1; subst. constructor.
    + inversion 1.
    + inversion 1; subst. congruence.
  - assert (Hcat : matches (Cat (deriv c r1) r2) s ->
                   matches (Cat r1 r2) (String c s)).
    { inversion 1; subst. rewrite <- app_String. constructor; [by apply IH1|done]. }
    assert (Hinv : matches (Cat r1 r2) (String c s) ->
              (exists s1 s2, s = s1 +:+ s2 /\ matches r1 (String c s1) /\ matches r2 s2)
              \/ (matches r1 EmptyString /\ matches r2 (String c s))).
    { inversion 1 as [| |? ? s1 s2 H1 H2| | | |]; subst.
      match goal with E : _ +:+ _ = String _ _ |- _ => rename E into Es end.
      destruct s1 as [|c1 s1].
      - right. rewrite app_empty_l in Es. by subst.
      - rewrite app_String in Es. injection Es as -> <-. left. eauto. }
    destruct (nullable r1) eqn:En; split.
    + inversion 1; subst; [by apply Hcat|].
      apply nullable_matches in En.
      rewrite <- (app_empty_l (String c s)). constructor; [done|by apply IH2].
    + intros [(s1 & s2 & -> & H1 & H2)|[H1 H2]]%Hinv.
      * apply matches_alt_l. constructor; [by apply IH1|done].
      * apply matches_alt_r. by apply IH2.
    + apply Hcat.
    + intros [(s1 & s2 & -> & H1 & H2)|[H1 H2]]%Hinv.
      * constructor; [by apply IH1|done].
      * apply nullable_matches in H1. congruence.
  - split.
    + inversion 1; subst; [apply matches_alt_l; by apply IH1|apply matches_alt_r; by apply IH2].
    + inversion 1; subst; [apply matches_alt_l; by apply IH1|apply matches_alt_r; by apply IH2].
  - split.
    + inversion 1; subst. rewrite <- app_String. constructor; [by apply IH|done].
    + intros H. destruct (matches_star_String _ _ H r c s) as (s1 & s2 & -> & H1 & H2);
        [done..|].
      constructor; [by apply IH|done].
Qed.

Lemma match_at_start_spec r s :
  match_at_start r s = true <-> exists m after, s = m +:+ after /\ matches r m.
Proof.
  revert r. induction s as [|c s IH]; intros r; simpl.
  - rewrite orb_false_r, nullable_matches. split.
    + intros H. exists EmptyString, EmptyString. done.
    + intros (m & after & E & H). symmetry in E.
      apply app_eq_empty in E as [-> _]. done.
  - rewrite orb_true_iff, nullable_matches, IH. split.
    + intros [H|(m & after & -> & H)].
      * exists EmptyString, (String c s). done.
      * exists (String c m), after. split; [done|]. by apply deriv_matches.
    + intros (m & after & E & H). destruct m as [|c' m].
      * by left.
      * rewrite app_String in E. injection E as <- ->.
        right. exists m, after. split; [done|]. by apply deriv_matches.
Qed.

(** [search] decides whether a match is found somewhere in the text. *)
Lemma search_spec r s : search r s = true <-> found_in r s.
Proof.
  unfold found_in. induction s as [|c s IH]; cbn [search].
  - rewrite orb_false_r, match_at_start_spec. split.
    + intros (m & after & E & H). exists EmptyString, m, after. done.
    + intros (before & m & after & E & H). symmetry in E.
      apply app_eq_empty in E as [-> E]. eauto.
  - rewrite orb_true_iff, match_at_start_spec, IH. split.
    + intros [(m & after & E & H)|(before & m & after & -> & H)].
      * exists EmptyString, m, after. done.
      * exists (String c before), m, after. done.
    + intros (before & m & after & E & H). destruct before as [|c' before].
      * left. exists m, after. done.
      * rewrite app_String in E. injection E as <- ->. right. eauto.
Qed.

End RegexFacts.

(** ** Phrase count (line 103) *)

Section PhraseCount.
Import PyStr CountSpec.





End PhraseCount.

(** ** Monetary mentions ([check_for_money]) *)

Section Money.
Import Py Sys Lib NewsScraper.

Lemma any_pattern_spec patterns text :
  any_pattern patterns text = true
  <-> exists r, List.In r patterns /\ Re.found_in r text.
Proof.
  induction patterns as [|r rs IH]; simpl.
  - split; [done|]. by intros (? & [] & _).
  - destruct (Re.search r text) eqn:E.
    + split; [|done]. intros _. exists r. split; [by left|]. by apply search_spec.
    + rewrite IH. split.
      * intros (r' & Hin & Hf). exists r'. auto.
      * intros (r' & [<-|Hin] & Hf); [|by exists r'].
        apply search_spec in Hf. congruence.
Qed.

(** [check_for_money] returns what its loop finds; it only adds to the log. *)
Lemma check_for_money_result title description st :
  (check_for_money title description st).1
  = Ok (any_pattern money_patterns (title +:+ " " +:+ description)).
Proof.
  unfold check_for_money.
  by destruct (any_pattern money_patterns (title +:+ " " +:+ description)).
Qed.

Lemma check_for_money_state title description st :
  let st' := (check_for_money title description st).2 in
  browser_open st' = browser_open st /\ location st' = location st
  /\ files st' = files st /\ stdout st' = stdout st.
Proof.
  unfold check_for_money.
  by destruct (any_pattern money_patterns (title +:+ " " +:+ description)).
Qed.

(** C2. [check_for_money] returns [True] for the titles
    [Shipment costs $1,200.50], [Costs 50 dollars] and [Costs 50 USD], and
    [False] for [No price mentioned], the description being empty. *)
Theorem check_for_money_examples st :
  (check_for_money "Shipment costs $1,200.50" "" st).1 = Ok true
  /\ (check_for_money "Costs 50 dollars" "" st).1 = Ok true
  /\ (check_for_money "Costs 50 USD" "" st).1 = Ok true
  /\ (check_for_money "No price mentioned" "" st).1 = Ok false.
Proof. rewrite !check_for_money_result. by vm_compute. Qed.

(** C3, as the specification states it, fails: the text searched is not
    the concatenation of title and description.  With title [50] and
    description [dollars] the code answers [True], yet no pattern has a
    match in [50dollars]. *)
Lemma check_for_money_concatenation_counterexample :
  (check_for_money "50" "dollars" initial).1 = Ok true
  /\ ~ exists r, List.In r money_patterns /\ Re.found_in r ("50" +:+ "dollars").
Proof.
  split; [done|].
  rewrite <- any_pattern_spec. by vm_compute.
Qed.

(** C3, amended. For every title and description, [check_for_money]
    returns a boolean, which is [True] exactly when the text made of the
    title, one space and the description contains a match of one of the
    three patterns [\$\d[\d,]*\.?\d{0,2}], [\d+ dollars], [\d+ USD]. *)
Theorem check_for_money_iff title description st :
  exists b,
    (check_for_money title description st).1 = Ok b
    /\ (b = true
        <-> exists r, List.In r money_patterns
                      /\ Re.found_in r (title +:+ " " +:+ description)).
Proof.
  eexists. split; [apply check_for_money_result|]. apply any_pattern_spec.
Qed.

End Money.

(** ** The image URL inside the relay URL ([download_image]) *)

Section QueryStrings.
Import Py Url UrlSpec.

Lemma split_once_spec c s a b :
  PyStr.split_once c s = Some (a, b)
  <-> s = a +:+ String c b /\ contains_char c a = false.
Proof.
  revert a. induction s as [|d s IH]; intros a; simpl.
  - split; [done|]. intros [E _]. by destruct a.
  - destruct (Ascii.eqb_spec d c) as [->|Hne].
    + split.
      * intros [= <- <-]. done.
      * intros [E Ha]. destruct a as [|a0 a]; [by injection E as ->|].
        rewrite app_String in E. injection E as <- ->.
        simpl in Ha. by rewrite Ascii.eqb_refl in Ha.
    + destruct (PyStr.split_once c s) as [[a' b']|] eqn:Es.
      * split.
        -- intros [= <- <-]. destruct (IH a') as [[-> Ha'] _]; [done|].
           split; [done|]. simpl. rewrite Ha'.
           by destruct (Ascii.eqb_spec d c).
        -- intros [E Ha]. destruct a as [|a0 a]; [by injection E as ->|].
           rewrite app_String in E. injection E as <- ->.
           simpl in Ha. apply orb_false_elim in Ha as [_ Ha].
           destruct (IH a) as [_ IHa]. specialize (IHa (conj eq_refl Ha)).
           by injection IHa as <- <-.
      * split; [done|]. intros [E Ha]. destruct a as [|a0 a]; [by injection E as ->|].
        rewrite app_String in E. injection E as <- ->.
        simpl in Ha. apply orb_false_elim in Ha as [_ Ha].
        destruct (IH a) as [_ IHa]. by specialize (IHa (conj eq_refl Ha)).
Qed.

Lemma parse_field_url field raw :
  url_field field raw -> parse_field field = Some ("url", decode_component raw).
Proof.
  intros (name & -> & Hname & Hdec & Hraw). unfold parse_field.
  assert (Hs : PyStr.split_once "=" (name +:+ "=" +:+ raw) = Some (name, raw))
    by by apply split_once_spec.
  rewrite Hs, Hdec.
  destruct name, raw; done.
Qed.

Lemma parse_field_other field n v :
  (forall r, ~ url_field field r) -> parse_field field = Some (n, v) -> n <> "url".
Proof.
  intros Hno Hp Hn. unfold parse_field in Hp.
  destruct field as [|c field]; [done|].
  destruct (PyStr.split_once "=" (String c field)) as [[name value]|] eqn:Es; [|done].
  apply split_once_spec in Es as [E Hname].
  destruct value as [|v0 value]; [done|].
  injection Hp as <- <-.
  apply (Hno (String v0 value)). exists name. done.
Qed.

Lemma values_of_app k l1 l2 : values_of k (l1 ++ l2) = values_of k l1 ++ values_of k l2.
Proof.
  induction l1 as [|[n v] l1 IH]; simpl; [done|].
  destruct (decide (n = k)); simpl; by rewrite IH.
Qed.

Lemma values_of_no_url fields :
  List.Forall (fun f => forall r, ~ url_field f r) fields ->
  values_of "url" (omap parse_field fields) = [].
Proof.
  induction 1 as [|f fields Hf _ IH]; simpl; [done|].
  destruct (parse_field f) as [[n v]|] eqn:Ef; simpl; [|done].
  destruct (decide (n = "url")) as [Hn|]; [|done].
  by destruct (parse_field_other f n v).
Qed.

(** The dictionary of [parse_qs] holds, for each name, its values in order. *)
Lemma foldl_parse_qs_add pairs d k :
  foldl parse_qs_add d pairs !! k
  = match values_of k pairs with
    | [] => d !! k
    | new => Some (default [] (d !! k) ++ new)
    end.
Proof.
  revert d. induction pairs as [|[n v] pairs IH]; intros d; [done|].
  cbn [foldl values_of]. rewrite IH.
  unfold parse_qs_add at 1 2; simpl.
  destruct (decide (n = k)) as [->|Hne].
  - destruct (d !! k) as [vs|] eqn:Ed; rewrite lookup_insert_eq; simpl;
      destruct (values_of k pairs); simpl; by rewrite <- ?app_assoc.
  - destruct (d !! n) as [vs|] eqn:Ed; by rewrite lookup_insert_ne.
Qed.

Lemma parse_qs_lookup qs k :
  parse_qs qs !! k
  = match values_of k (parse_qsl qs) with
    | [] => None
    | new => Some new
    end.
Proof. unfold parse_qs. by rewrite foldl_parse_qs_add, lookup_empty. Qed.

Lemma parse_qs_url q raw :
  url_parameter q raw ->
  exists more, parse_qs q !! "url" = Some (decode_component raw :: more).
Proof.
  intros (before & field & after & Hsplit & Hfield & Hbefore).
  rewrite parse_qs_lookup. unfold parse_qsl. rewrite Hsplit, omap_app.
  rewrite values_of_app, values_of_no_url by done. simpl.
  rewrite (parse_field_url _ _ Hfield). simpl. eauto.
Qed.

Lemma parse_qs_no_url q :
  no_url_parameter q -> parse_qs q !! "url" = None.
Proof.
  intros H. rewrite parse_qs_lookup. unfold parse_qsl.
  by rewrite values_of_no_url.
Qed.



(** [split] followed by [[-1]] gives what follows the last separator:
    either there is one piece, the string itself, or several, and the
    string is a directory part, a separator and the last piece. *)
Lemma split_last_piece s :
  let pieces := PyStr.split "/" s in
  let name := PyStr.last_piece pieces in
  contains_char "/" name = false
  /\ ((pieces = [name] /\ s = name)
      \/ (exists p rest dir,
            pieces = p :: rest /\ rest <> [] /\ s = dir +:+ "/" +:+ name)).
Proof.
  unfold PyStr.last_piece. induction s as [|c s (IHc & IHs)]; cbn zeta.
  { split; [done|]. by left. }
  cbn [PyStr.split].
  destruct (Ascii.eqb_spec c "/") as [->|Hne].
  - destruct IHs as [[El Es]|(p & rest & dir & El & Hrest & Es)].
    + rewrite El in *. cbn [List.last] in *. split; [done|]. right.
      exists EmptyString, [List.last [PyStr.last_piece (PyStr.split "/" s)] EmptyString],
        EmptyString.
      cbn [List.last]. split; [done|]. split; [done|]. by rewrite Es at 1.
    + rewrite El in *.
      change (List.last (EmptyString :: p :: rest) EmptyString)
        with (List.last (p :: rest) EmptyString).
      split; [done|]. right.
      exists EmptyString, (p :: rest), (String "/" dir).
      split; [done|]. split; [done|]. by rewrite Es at 1.
  - destruct IHs as [[El Es]|(p & rest & dir & El & Hrest & Es)].
    + rewrite El in *. cbn [List.last] in *. split.
      * cbn [contains_char]. rewrite IHc. by destruct (Ascii.eqb_spec c "/").
      * left. split; [done|]. by rewrite Es at 1.
    + rewrite El in *. destruct rest as [|p' rest]; [done|].
      change (List.last (p :: p' :: rest) EmptyString)
        with (List.last (p' :: rest) EmptyString) in *.
      change (List.last (String c p :: p' :: rest) EmptyString)
        with (List.last (p' :: rest) EmptyString).
      split; [done|]. right.
      exists (String c p), (p' :: rest), (String c dir).
      split; [done|]. split; [done|]. by rewrite Es at 1.
Qed.


End QueryStrings.

Section PathFacts.

Lemma endswith_sep_app (a b : string) :
  b <> EmptyString -> OsPath.endswith_sep (a +:+ b) = OsPath.endswith_sep b.
Proof.
  intros Hb. induction a as [|c a IH]; [done|].
  rewrite app_String. cbn [OsPath.endswith_sep].
  destruct (a +:+ b) eqn:E; [|done].
  apply app_eq_empty in E as [_ ->]. done.
Qed.

Lemma endswith_sep_absent (s : string) :
  Url.contains_char "/" s = false -> OsPath.endswith_sep s = false.
Proof.
  induction s as [|c s IH]; [done|]. cbn [Url.contains_char OsPath.endswith_sep].
  intros [Hc Hs]%orb_false_elim. destruct s; [done|]. by apply IH.
Qed.

(** A name without [/] that is not empty is joined to a directory as a file
    of it: the path does not end with [/]. *)
Lemma endswith_sep_join (a b : string) :
  b <> EmptyString ->
  Url.contains_char "/" b = false ->
  OsPath.endswith_sep (OsPath.join a b) = false.
Proof.
  intros Hb Hc. pose proof (endswith_sep_absent b Hc) as Hend.
  assert (Hj : OsPath.join a b = b \/ OsPath.join a b = a +:+ b
               \/ OsPath.join a b = a +:+ "/" +:+ b).
  { unfold OsPath.join. destruct b as [|c b]; [done|].
    destruct a as [|c' a];
      destruct c as [[] [] [] [] [] [] [] []]; auto;
      destruct (OsPath.endswith_sep (String c' a)); auto. }
  destruct Hj as [->|[->| ->]]; [done|by rewrite endswith_sep_app|].
  rewrite endswith_sep_app; [|by destruct b].
  change ("/" +:+ b) with (String "/" b). cbn [OsPath.endswith_sep].
  by destruct b.
Qed.

End PathFacts.

Section DownloadImage.
Import Py Sys Lib NewsScraper Url UrlSpec.


(** The image step ends without an exception, whatever the URL and
    whatever the browser does. *)
Lemma download_image_total w url st :
  exists name st', download_image w url st = (Ok name, st').
Proof.
  unfold download_image. run_py.
  destruct url as [[|c url]|]; [by eauto| |by eauto].
  destruct (urlparse_query (String c url)) as [q|e]; [|by eauto].
  host_check; [by eauto| |];
    (destruct (parse_qs q !! "url") as [[|v more]|]; [by eauto| |by eauto];
     destruct (go_to_error w (unquote v)); [by eauto|];
     destruct (OsPath.endswith_sep _); [by eauto|];
     destruct (screenshot_error w _); by eauto).
Qed.

Lemma download_image_absent w url st :
  url = None \/ url = Some EmptyString ->
  exists st', download_image w url st = (Ok None, st') /\ files st' = files st.
Proof. intros [-> | ->]; (eexists; split; [reflexivity|done]). Qed.

Lemma download_image_unparsed w url e st :
  urlparse_query url = Raise e ->
  exists st', download_image w (Some url) st = (Ok None, st') /\ files st' = files st.
Proof.
  intros Hq. unfold download_image. run_py.
  destruct url as [|c url]; [done|].
  rewrite Hq. eexists; split; [reflexivity|done].
Qed.

Lemma download_image_no_parameter w url q st :
  urlparse_query url = Ok q ->
  no_url_parameter q ->
  exists st', download_image w (Some url) st = (Ok None, st') /\ files st' = files st.
Proof.
  intros Hq Hno%parse_qs_no_url. unfold download_image. run_py.
  destruct url as [|c url]; [eexists; split; [reflexivity|done]|].
  rewrite Hq. host_check; rewrite ?Hno; (eexists; split; [reflexivity|done]).
Qed.

Lemma download_image_fetch_fails w url q raw e st :
  urlparse_query url = Ok q ->
  url_parameter q raw ->
  go_to_error w (unquote (decode_component raw)) = Some e ->
  exists st', download_image w (Some url) st = (Ok None, st') /\ files st' = files st.
Proof.
  intros Hq [more Hurl]%parse_qs_url Hgo. unfold download_image. run_py.
  destruct url as [|c url]; [eexists; split; [reflexivity|done]|].
  rewrite Hq. host_check; rewrite ?Hurl, ?Hgo; (eexists; split; [reflexivity|done]).
Qed.

End DownloadImage.

Section ImageUrl.
Import Py Sys Lib NewsScraper Url UrlSpec.




End ImageUrl.

(** ** Persistence ([save_to_excel]) *)

Section Persistence.
Import Py Sys Lib NewsScraper ScraperSpec.

Lemma append_articles_ok w wb articles st :
  append_rows_error w = None ->
  append_articles w wb articles st
  = (Ok {| wb_path := wb_path wb; wb_rows := wb_rows wb ++ (values <$> articles) |}, st).
Proof.
  intros Happ. revert wb. induction articles as [|a rest IH]; intros wb.
  - simpl. rewrite app_nil_r. by destruct wb.
  - cbn [append_articles]. run_py. rewrite Happ. cbn [wb_path wb_rows].
    rewrite IH. cbn [wb_path wb_rows]. by rewrite <- app_assoc.
Qed.

(** When no spreadsheet call fails, the sheet saved holds the keys of the
    first article and then the values of every article. *)
Lemma save_to_excel_ok w a rest st :
  excel_works w ->
  exists st',
    save_to_excel w (a :: rest) st = (Ok tt, st')
    /\ files st' = <[sheet_path w := Workbook (keys a :: (values <$> a :: rest))]> (files st)
    /\ browser_open st' = browser_open st /\ location st' = location st.
Proof.
  intros (Hc & Happ & Hs & Hcl). unfold save_to_excel, progress_indicator. run_py.
  rewrite Hc, Happ. cbn [wb_path wb_rows].
  rewrite append_articles_ok by done. cbn [wb_path wb_rows]. rewrite Hs, Hcl.
  eexists. split; [reflexivity|]. done.
Qed.

(** A spreadsheet call that fails before the sheet is saved is logged and
    raised again, and no file is written. *)
Lemma save_to_excel_raises w articles st :
  is_Some (create_workbook_error w) \/ is_Some (append_rows_error w)
  \/ is_Some (save_workbook_error w) \/ articles = [] ->
  exists e st', save_to_excel w articles st = (Raise e, st') /\ files st' = files st.
Proof.
  intros H. unfold save_to_excel, progress_indicator. run_py.
  destruct (create_workbook_error w) as [e|] eqn:Hc; [by eexists _, _|].
  destruct articles as [|a rest]; [by eexists _, _|].
  destruct (append_rows_error w) as [e|] eqn:Happ; [by eexists _, _|].
  rewrite append_articles_ok by done. cbn [wb_path wb_rows].
  destruct (save_workbook_error w) as [e|] eqn:Hs; [by eexists _, _|].
  destruct H as [[? [=]]|[[? [=]]|[[? [=]]|[=]]]].
Qed.

End Persistence.

(** ** Extraction ([extract_news]) *)

Section Extraction.
Import Py Sys Lib NewsScraper ScraperSpec.

(** The image step in the three cases of [no_image]. *)
Lemma download_image_no_image w url st :
  no_image w url ->
  exists st', download_image w url st = (Ok None, st') /\ files st' = files st.
Proof.
  intros [->|[(u & q & -> & Hq & Hno)|(u & q & raw & e & -> & Hq & Hraw & Hgo)]].
  - apply download_image_absent. by left.
  - by apply (download_image_no_parameter w u q).
  - by apply (download_image_fetch_fails w u q raw e).
Qed.

(** With the five elements on the page and a working spreadsheet library,
    extraction succeeds whatever the image step does, and saves the header
    and the row of the article. *)
Lemma extract_news_ok w phrase st e0 img t d dt :
  find w first_result = Some e0 ->
  find w image = Some img ->
  find w title = Some t ->
  find w description = Some d ->
  find w date = Some dt ->
  excel_works w ->
  exists name st1 st',
    download_image w (assoc "src" (el_attrs img))
      (add_log INFO "Extracting the newest news article." st) = (Ok name, st1)
    /\ extract_news w phrase st = (Ok tt, st')
    /\ files st'
       = <[sheet_path w :=
             Workbook [header;
                       article_row phrase (el_text t) (el_text dt) (el_text d) name]]>
           (files st1).
Proof.
  unfold first_result, image, title, description, date.
  intros H0 Himg Ht Hd Hdt Hxl.
  destruct (download_image_total w (assoc "src" (el_attrs img))
              (add_log INFO "Extracting the newest news article." st))
    as (name & st1 & Hdl).
  exists name, st1.
  unfold extract_news, progress_indicator. run_py.
  rewrite H0, Himg, Ht, Hd, Hdt, Hdl.
  pose proof (check_for_money_result (el_text t) (el_text d) st1) as Hr.
  destruct (check_for_money_state (el_text t) (el_text d) st1) as (_ & _ & Hf & _).
  destruct (check_for_money (el_text t) (el_text d) st1) as [r st2].
  cbn [fst snd] in Hr, Hf. subst r.
  match goal with |- context [save_to_excel w [?a] ?s] =>
    destruct (save_to_excel_ok w a [] s Hxl) as (st3 & Hsave & Hfiles & _)
  end.
  rewrite Hsave. eexists. split; [reflexivity|]. split; [reflexivity|].
  cbn [files add_log add_stdout]. rewrite Hfiles. cbn [files add_log]. by rewrite Hf.
Qed.

(** A lookup that finds nothing on the page ends extraction: the error is
    logged and raised again, and nothing is written or printed. *)
Lemma extract_news_raises w phrase st :
  find w first_result = None \/ find w image = None \/ find w title = None
  \/ find w description = None \/ find w date = None ->
  exists locator st',
    extract_news w phrase st = (Raise (not_found locator), st')
    /\ find w locator = None
    /\ files st' = files st
    /\ stdout st' = stdout st
    /\ log st'
       = log st ++ [ (INFO, "Extracting the newest news article.");
                     (ERROR, "Error during extraction: "
                             +:+ exn_str (not_found locator)) ].
Proof.
  unfold first_result, image, title, description, date.
  intros H. unfold extract_news. run_py.
  assert (Hlog : forall (l : list (level * string)) a b, (l ++ [a]) ++ [b] = l ++ [a; b])
    by (intros; by rewrite <- app_assoc).
  destruct (find w "css:ul.search-results-module-results-menu > li:first-child") eqn:H0;
    [|eexists _, _; split; [reflexivity|]; cbn [files stdout log add_log]; by rewrite Hlog].
  destruct (find w "css:img.image") eqn:H1;
    [|eexists _, _; split; [reflexivity|]; cbn [files stdout log add_log]; by rewrite Hlog].
  destruct (find w "css:h3.promo-title a.link") eqn:H2;
    [|eexists _, _; split; [reflexivity|]; cbn [files stdout log add_log]; by rewrite Hlog].
  destruct (find w "css:p.promo-description") eqn:H3;
    [|eexists _, _; split; [reflexivity|]; cbn [files stdout log add_log]; by rewrite Hlog].
  destruct (find w "css:p.promo-timestamp") eqn:H4;
    [|eexists _, _; split; [reflexivity|]; cbn [files stdout log add_log]; by rewrite Hlog].
  by destruct H as [|[|[|[|]]]].
Qed.

End Extraction.

(** ** The claims about extraction, persistence and the run *)

Section Pipeline.
Import Py Sys Lib NewsScraper ScraperSpec.

(** C5, as the specification states it, fails: a caption element that is
    missing makes the text lookup raise, and [extract_news] logs the error
    and raises it again.  On a results page without the title element
    extraction fails and nothing is saved; no field is set to the empty
    string. *)
Lemma extract_news_missing_title_counterexample :
  let w := Example.quiet Example.page_without_title in
  find w title = None
  /\ is_Some (find w first_result) /\ is_Some (find w image)
  /\ is_Some (find w description) /\ is_Some (find w date)
  /\ exists st',
       extract_news w "ship" initial = (Raise (not_found title), st')
       /\ files st' = ∅.
Proof.
  cbn zeta. split; [done|]. do 4 (split; [by eexists|]).
  eexists. split; [by vm_compute|]. done.
Qed.

(** C5, amended. The captions are looked up on the whole page, not
    inside the first result.  If no element of the page matches the locator
    of the title, of the description or of the date, extraction fails: the
    lookup error for a missing element is logged by [extract_news]
    ([Error during extraction: ...]) and raised again, and no file is written;
    no field is set to the empty string. *)
Theorem extract_news_missing_caption w phrase st :
  find w title = None \/ find w description = None \/ find w date = None ->
  exists locator st',
    extract_news w phrase st = (Raise (not_found locator), st')
    /\ find w locator = None
    /\ files st' = files st
    /\ log st'
       = log st ++ [ (INFO, "Extracting the newest news article.");
                     (ERROR, "Error during extraction: "
                             +:+ exn_str (not_found locator)) ].
Proof.
  intros H.
  destruct (extract_news_raises w phrase st) as (l & st' & He & Hl & Hf & _ & Hlog);
    [tauto|].
  by exists l, st'.
Qed.

Lemma extract_news_missing_caption_witness :
  exists locator st',
    extract_news (Example.quiet Example.page_without_title) "ship" initial
    = (Raise (not_found locator), st')
    /\ find (Example.quiet Example.page_without_title) locator = None
    /\ files st' = files initial
    /\ log st'
       = log initial ++ [ (INFO, "Extracting the newest news article.");
                          (ERROR, "Error during extraction: "
                                  +:+ exn_str (not_found locator)) ].
Proof.
  apply (extract_news_missing_caption
           (Example.quiet Example.page_without_title) "ship" initial).
  left. reflexivity.
Defined.

(** C6. The image step never raises, whatever the URL and the browser do;
    when the URL is absent, when its query string has no [url] parameter, or
    when the page of the resolved URL cannot be loaded, it returns [None] and
    writes no file; and in these cases extraction still succeeds (the page
    having its five elements and the spreadsheet library working): the
    row saved holds the title, the date and the description read, and [None]
    as the image filename. *)
Theorem download_image_never_raises :
  (forall w url st, exists name st', download_image w url st = (Ok name, st'))
  /\ (forall w url st,
        no_image w url ->
        exists st', download_image w url st = (Ok None, st') /\ files st' = files st)
  /\ (forall w phrase st e0 img t d dt,
        find w first_result = Some e0 ->
        find w image = Some img ->
        find w title = Some t ->
        find w description = Some d ->
        find w date = Some dt ->
        excel_works w ->
        no_image w (assoc "src" (el_attrs img)) ->
        exists st',
          extract_news w phrase st = (Ok tt, st')
          /\ files st'
             = <[sheet_path w :=
                   Workbook
                     [header;
                      [VStr (el_text t); VStr (el_text dt); VStr (el_text d); VNone;
                       VInt (Z.of_nat (Count.count_search_phrases
                                         (el_text t) (el_text d) phrase));
                       VBool (any_pattern money_patterns
                                (el_text t +:+ " " +:+ el_text d))]]]>
                 (files st)).
Proof.
  split; [apply download_image_total|]. split; [apply download_image_no_image|].
  intros w phrase st e0 img t d dt H0 Himg Ht Hd Hdt Hxl Hno.
  destruct (extract_news_ok w phrase st e0 img t d dt) as (name & st1 & st' & Hdl & He & Hf);
    [done..|].
  destruct (download_image_no_image w _ (add_log INFO "Extracting the newest news article." st) Hno)
    as (st1' & Hdl' & Hf1).
  rewrite Hdl in Hdl'. injection Hdl' as -> ->.
  exists st'. split; [done|]. rewrite Hf, Hf1. done.
Qed.

Lemma download_image_never_raises_witness :
  exists st',
    extract_news (Example.offline (Example.page (Some Example.relay_url))) "ship" initial
    = (Ok tt, st')
    /\ files st'
       = {[ "/home/robot/output/news_data.xlsx" :=
              Workbook
                [header;
                 [VStr "Ship costs $1,200.50"; VStr "Nov. 4"; VStr "A SHIP and a ship";
                  VNone; VInt 3; VBool true]] ]}.
Proof.
  destruct download_image_never_raises as (_ & _ & H).
  destruct (H (Example.offline (Example.page (Some Example.relay_url))) "ship" initial
              (Element "Ship costs $1,200.50 A SHIP and a ship Nov. 4" [])
              (Element "" [("src", Example.relay_url)])
              (Element "Ship costs $1,200.50" [])
              (Element "A SHIP and a ship" [])
              (Element "Nov. 4" []))
    as (st' & He & Hf); try reflexivity.
  - repeat split.
  - right; right.
    exists Example.relay_url, "url=https%3A%2F%2Fcdn.example%2Fphoto.jpg",
      "https%3A%2F%2Fcdn.example%2Fphoto.jpg", (LibraryError "net::ERR_CONNECTION_REFUSED").
    split; [reflexivity|]. split; [reflexivity|]. split; [|reflexivity].
    exists [], "url=https%3A%2F%2Fcdn.example%2Fphoto.jpg", [].
    split; [reflexivity|]. split; [|constructor].
    exists "url". repeat split. discriminate.
  - exists st'. split; [exact He|]. rewrite Hf. reflexivity.
Defined.

Lemma open_site_files w st : files (open_site w st).2 = files st.
Proof. unfold open_site. run_py. by destruct (open_browser_error w). Qed.

Lemma search_news_files w phrase st : files (search_news w phrase st).2 = files st.
Proof.
  unfold search_news, progress_indicator. run_py.
  by destruct (click_error w), (input_error w), (press_error w).
Qed.

(** The files a run leaves are those its steps leave: closing the browser
    writes nothing, whether it fails or not. *)
Lemma run_files w phrase st :
  files (run w phrase st).2 = files st
  \/ exists st0,
       files st0 = files st
       /\ files (run w phrase st).2 = files (extract_news w phrase st0).2.
Proof.
  unfold run, progress_indicator. run_py.
  set (st0 := add_stdout _ (add_log INFO _ (add_log INFO _ st))).
  pose proof (open_site_files w st0) as Ho.
  destruct (open_site w st0) as [[[]|e] st1]; cbn [snd] in Ho.
  - pose proof (search_news_files w phrase st1) as Hs.
    destruct (search_news w phrase st1) as [[[]|e] st2]; cbn [snd] in Hs.
    + right. exists st2. split; [by rewrite Hs, Ho|].
      destruct (extract_news w phrase st2) as [[[]|e] st3];
        by destruct (open_browser_error w), (close_browser_error w).
    + left. destruct (open_browser_error w), (close_browser_error w);
        cbn [snd files add_log set_browser]; by rewrite Hs, Ho.
  - left. destruct (open_browser_error w), (close_browser_error w);
      cbn [snd files add_log set_browser]; by rewrite Ho.
Qed.

(** C7. If the first entry of the results list cannot be located,
    extraction fails with the lookup error and writes no file, so no header
    and no row; the run as a whole leaves the files as they were too. *)
Theorem extract_news_no_results w phrase st :
  find w first_result = None ->
  (exists st',
      extract_news w phrase st = (Raise (not_found first_result), st')
      /\ files st' = files st)
  /\ files (run w phrase st).2 = files st.
Proof.
  intros H.
  assert (He : forall s, exists s',
             extract_news w phrase s = (Raise (not_found first_result), s')
             /\ files s' = files s).
  { intros s. unfold first_result in *. unfold extract_news. run_py. rewrite H.
    eexists. split; [reflexivity|done]. }
  split; [apply He|].
  destruct (run_files w phrase st) as [Hf|(st0 & Hf0 & Hf)]; [done|].
  destruct (He st0) as (s' & Hs' & Hfs'). rewrite Hf, Hs'. cbn [snd]. congruence.
Qed.

Lemma extract_news_no_results_witness :
  (exists st',
      extract_news (Example.quiet (fun _ => None)) "ship" initial
      = (Raise (not_found first_result), st')
      /\ files st' = files initial)
  /\ files (run (Example.quiet (fun _ => None)) "ship" initial).2 = files initial.
Proof.
  apply (extract_news_no_results (Example.quiet (fun _ => None)) "ship" initial).
  reflexivity.
Defined.

(** Each step hands its failure on: a browser that cannot be opened, a
    search box that cannot be clicked, a spreadsheet that cannot be created. *)
Lemma steps_raise_open w phrase st e :
  open_browser_error w = Some e ->
  exists st', steps w phrase st = (Raise e, st').
Proof.
  intros H. unfold steps, open_site. run_py. rewrite H. by eexists.
Qed.

Lemma steps_raise_search w phrase st e :
  open_browser_error w = None -> click_error w = Some e ->
  exists st', steps w phrase st = (Raise e, st').
Proof.
  intros Ho Hc. unfold steps, open_site, search_news. run_py. rewrite Ho, Hc. by eexists.
Qed.

Lemma steps_raise_persist w phrase st e0 img t d dt e :
  open_browser_error w = None -> click_error w = None ->
  input_error w = None -> press_error w = None ->
  find w first_result = Some e0 -> find w image = Some img ->
  find w title = Some t -> find w description = Some d -> find w date = Some dt ->
  create_workbook_error w = Some e ->
  exists st', steps w phrase st = (Raise e, st').
Proof.
  unfold first_result, image, title, description, date.
  intros Ho Hc Hi Hp H0 Himg Ht Hd Hdt Hx.
  unfold steps, open_site, search_news, extract_news, progress_indicator. run_py.
  rewrite Ho, Hc, Hi, Hp, H0, Himg, Ht, Hd, Hdt.
  match goal with |- context [download_image w ?u ?s] =>
    destruct (download_image_total w u s) as (name & st1 & ->) end.
  destruct (check_for_money (el_text t) (el_text d) st1) as [r st2] eqn:Hm.
  pose proof (check_for_money_result (el_text t) (el_text d) st1) as Hr.
  rewrite Hm in Hr. cbn [fst] in Hr. subst r.
  unfold save_to_excel. run_py. rewrite Hx. by eexists.
Qed.

(** C8, as the specification states it, fails: [close_browser] is called
    in the [finally] block, outside any handler.  In a world where the browser
    opens and quitting it fails, [run] ends with that exception and the
    browser is still open. *)
Lemma run_close_failure_counterexample :
  let w := {| cwd := "/home/robot";
              open_browser_error := None; click_error := None;
              input_error := None; press_error := None;
              find := Example.page None;
              go_to_error := fun _ => None; screenshot_error := fun _ => None;
              create_workbook_error := None; append_rows_error := None;
              save_workbook_error := None; close_workbook_error := None;
              close_browser_error := Some (LibraryError "quit failed");
              bracketed_host_error := fun _ => None |} in
  exists st',
    run w "ship" initial = (Raise (LibraryError "quit failed"), st')
    /\ browser_open st' = true.
Proof. cbn zeta. eexists. split; [by vm_compute|]. done. Qed.

(** C8, amended. [run] catches every error of its steps (opening the site,
    the search, extraction with the saving of the sheet): the error is logged
    by [run] and goes no further, and on every path [close_browser] is called
    next.  When closing raises nothing, [run] returns normally with the browser
    closed; an error raised by [close_browser] itself is not caught: it leaves
    [run]. *)
Theorem run_catches_and_closes w phrase st :
  exists st1,
    match steps w phrase (started st) with
    | (Ok _, s) =>
        st1 = add_log INFO "News scraping process completed successfully." s
    | (Raise e, s) =>
        st1 = add_log ERROR
                ("An error occurred during the scraping process: " +:+ exn_str e) s
    end
    /\ run w phrase st = (close_browser w ;; log_info "Browser closed.")%py st1
    /\ match quit_error w with
       | None =>
           run w phrase st = (Ok tt, closed st1)
           /\ browser_open (closed st1) = false
       | Some e => run w phrase st = (Raise e, st1)
       end.
Proof.
  unfold run, steps, started, closed, quit_error, progress_indicator. run_py.
  change ("Progress: " +:+ pretty 1 +:+ "/" +:+ pretty 3 +:+ " steps completed.")
    with "Progress: 1/3 steps completed.".
  match goal with |- context [open_site w ?s] => destruct (open_site w s) as [[[]|e1] s1] end.
  - destruct (search_news w phrase s1) as [[[]|e2] s2].
    + destruct (extract_news w phrase s2) as [[[]|e3] s3];
        (eexists; split; [reflexivity|];
         by destruct (open_browser_error w), (close_browser_error w)).
    + eexists; split; [reflexivity|];
        by destruct (open_browser_error w), (close_browser_error w).
  - eexists; split; [reflexivity|];
      by destruct (open_browser_error w), (close_browser_error w).
Qed.

(** C9. When extraction reaches persistence and the spreadsheet library
    works, the file [news_data.xlsx] of the output directory holds exactly two
    rows: the header [Title, Date, Description, Image Filename, Count of Search
    Phrases, Contains Money], then the values of the article in that order. *)
Theorem extract_news_saves_sheet w phrase st e0 img t d dt :
  find w first_result = Some e0 ->
  find w image = Some img ->
  find w title = Some t ->
  find w description = Some d ->
  find w date = Some dt ->
  excel_works w ->
  exists image_filename st',
    extract_news w phrase st = (Ok tt, st')
    /\ files st' !! OsPath.join (Config.OUTPUT_DIR w) "news_data.xlsx"
       = Some (Workbook
                 [ [VStr "Title"; VStr "Date"; VStr "Description";
                    VStr "Image Filename"; VStr "Count of Search Phrases";
                    VStr "Contains Money"];
                   [VStr (el_text t); VStr (el_text dt); VStr (el_text d);
                    image_cell image_filename;
                    VInt (Z.of_nat (Count.count_search_phrases
                                      (el_text t) (el_text d) phrase));
                    VBool (any_pattern money_patterns
                             (el_text t +:+ " " +:+ el_text d))] ]).
Proof.
  intros H0 Himg Ht Hd Hdt Hxl.
  destruct (extract_news_ok w phrase st e0 img t d dt) as (name & st1 & st' & _ & He & Hf);
    [done..|].
  exists name, st'. split; [done|]. rewrite Hf. apply lookup_insert_eq.
Qed.

Lemma extract_news_saves_sheet_witness :
  exists image_filename st',
    extract_news (Example.quiet (Example.page (Some Example.relay_url))) "ship" initial
    = (Ok tt, st')
    /\ files st' !! "/home/robot/output/news_data.xlsx"
       = Some (Workbook
                 [ [VStr "Title"; VStr "Date"; VStr "Description";
                    VStr "Image Filename"; VStr "Count of Search Phrases";
                    VStr "Contains Money"];
                   [VStr "Ship costs $1,200.50"; VStr "Nov. 4";
                    VStr "A SHIP and a ship"; image_cell image_filename;
                    VInt 3; VBool true] ]).
Proof.
  apply (extract_news_saves_sheet
           (Example.quiet (Example.page (Some Example.relay_url))) "ship" initial
           (Element "Ship costs $1,200.50 A SHIP and a ship Nov. 4" [])
           (Element "" [("src", Example.relay_url)])
           (Element "Ship costs $1,200.50" [])
           (Element "A SHIP and a ship" [])
           (Element "Nov. 4" [])); try reflexivity.
  repeat split.
Defined.

End Pipeline.

(** ** What the three patterns come to *)

Section PlainMoney.
Import Py Sys NewsScraper ScraperSpec Re.

Lemma matches_Sym_inv cs s :
  matches (Sym cs) s -> exists c, s = String c EmptyString /\ cset_mem cs c = true.
Proof. inversion 1; subst. eauto. Qed.

Lemma matches_Cat_inv r1 r2 s :
  matches (Cat r1 r2) s ->
  exists s1 s2, s = s1 +:+ s2 /\ matches r1 s1 /\ matches r2 s2.
Proof. inversion 1; subst. eauto. Qed.

Lemma matches_Word w s : matches (Word w) s <-> s = w.
Proof.
  revert s. induction w as [|c w IH]; intros s; simpl.
  - split; [by inversion 1|]. intros ->. constructor.
  - split.
    + intros (s1 & s2 & -> & (c' & -> & Hc)%matches_Sym_inv & ->%IH)%matches_Cat_inv.
      cbn [cset_mem] in Hc. apply Ascii.eqb_eq in Hc as ->. done.
    + intros ->. apply (matches_cat _ _ (String c EmptyString) w).
      * constructor. simpl. apply Ascii.eqb_refl.
      * by apply IH.
Qed.

Lemma matches_digits_last r s :
  matches r s -> r = Star (Sym Digit) ->
  s = EmptyString
  \/ exists before d, s = before +:+ String d EmptyString /\ is_digit d = true.
Proof.
  induction 1 as [| | | | | |r' s1 s2 H1 _ H2 IH2]; intros Er; try discriminate.
  - by left.
  - injection Er as ->. apply matches_Sym_inv in H1 as (c & -> & Hc).
    right. destruct (IH2 eq_refl) as [->|(before & d & -> & Hd)].
    + by exists EmptyString, c.
    + by exists (String c before), d.
Qed.

Lemma matches_number_last s :
  matches (Plus (Sym Digit)) s ->
  exists before d, s = before +:+ String d EmptyString /\ is_digit d = true.
Proof.
  intros (s1 & s2 & -> & (c & -> & Hc)%matches_Sym_inv & H2)%matches_Cat_inv.
  destruct (matches_digits_last _ _ H2 eq_refl) as [->|(before & d & -> & Hd)].
  - by exists EmptyString, c.
  - by exists (String c before), d.
Qed.

(** The first pattern is found exactly where a dollar sign is followed by a
    digit: what the pattern reads after that digit is optional. *)
Lemma found_dollar_pattern text :
  found_in
    (Cat (Sym (Lit "$"))
       (Cat (Sym Digit)
          (Cat (Star (Sym (Union Digit (Lit ","))))
             (Cat (Opt (Sym (Lit "."))) (Upto 2 (Sym Digit)))))) text
  <-> dollar_sign_amount text.
Proof.
  split.
  - intros (before & m & after & -> & Hm).
    apply matches_Cat_inv in Hm as (s1 & s2 & -> & (c & -> & Hc)%matches_Sym_inv & Hm).
    apply matches_Cat_inv in Hm as (s3 & s4 & -> & (d & -> & Hd)%matches_Sym_inv & _).
    cbn [cset_mem] in Hc. apply Ascii.eqb_eq in Hc as <-.
    exists before, d, (s4 +:+ after). split; [|done].
    by rewrite !app_String, !app_empty_l, app_String.
  - intros (before & d & after & -> & Hd).
    exists before, (String "$" (String d EmptyString)), after. split; [done|].
    apply (matches_cat _ _ (String "$" EmptyString) (String d EmptyString));
      [by constructor|].
    apply (matches_cat _ _ (String d EmptyString) EmptyString); [by constructor|].
    apply (matches_cat _ _ EmptyString EmptyString); [constructor|].
    apply (matches_cat _ _ EmptyString EmptyString);
      apply matches_alt_l; constructor.
Qed.

(** A number followed by a word is found exactly where a digit is followed by
    the word. *)
Lemma found_amount_pattern w text :
  found_in (Cat (Plus (Sym Digit)) (Word w)) text <-> amount_in w text.
Proof.
  split.
  - intros (before & m & after & -> & Hm).
    apply matches_Cat_inv in Hm as (s1 & s2 & -> & Hn%matches_number_last & ->%matches_Word).
    destruct Hn as (pre & d & -> & Hd).
    exists (before +:+ pre), d, after. split; [|done].
    by rewrite !app_assoc_str, app_String, app_empty_l.
  - intros (before & d & after & -> & Hd).
    exists before, (String d EmptyString +:+ w), after. split.
    + by rewrite !app_String, app_empty_l.
    + constructor; [|by apply matches_Word].
      apply (matches_cat _ _ (String d EmptyString) EmptyString); by constructor.
Qed.

(** [check_for_money] answers [True] exactly when the text made of the title,
    a space and the description holds a dollar sign directly followed by a
    digit, or a digit directly followed by [ dollars] or by [ USD] (with one
    space before the word). *)
Theorem check_for_money_plain title description st :
  (check_for_money title description st).1 = Ok true
  <-> dollar_sign_amount (title +:+ " " +:+ description)
      \/ amount_in " dollars" (title +:+ " " +:+ description)
      \/ amount_in " USD" (title +:+ " " +:+ description).
Proof.
  rewrite check_for_money_result.
  rewrite <- found_dollar_pattern, <- !found_amount_pattern.
  split.
  - intros H.
    assert (H' : any_pattern money_patterns (title +:+ " " +:+ description) = true)
      by congruence.
    apply any_pattern_spec in H' as (r & Hin & Hf).
    destruct Hin as [<-|[<-|[<-|[]]]]; auto.
  - intros H. f_equal. apply any_pattern_spec.
    destruct H as [H|[H|H]]; eexists; (split; [|exact H]); simpl; auto.
Qed.

(** The answer of [check_for_money] and the phrase count depend on the
    texts alone: the state the call starts in plays no part, and the call
    changes nothing but the log. *)
Theorem check_for_money_pure title description st1 st2 :
  (check_for_money title description st1).1
  = (check_for_money title description st2).1
  /\ files (check_for_money title description st1).2 = files st1
  /\ browser_open (check_for_money title description st1).2 = browser_open st1
  /\ location (check_for_money title description st1).2 = location st1
  /\ stdout (check_for_money title description st1).2 = stdout st1.
Proof.
  rewrite !check_for_money_result.
  destruct (check_for_money_state title description st1) as (? & ? & ? & ?).
  done.
Qed.

End PlainMoney.

Section MissingImage.
Import Py Sys Lib NewsScraper ScraperSpec.

(** When no element of the page matches the image locator, the attribute
    lookup raises and extraction fails like for any other missing element:
    the error is logged by [extract_news] and raised again, and no file is
    written. *)
Theorem extract_news_missing_image w phrase st e0 :
  find w first_result = Some e0 ->
  find w image = None ->
  exists st',
    extract_news w phrase st = (Raise (not_found image), st')
    /\ files st' = files st
    /\ log st'
       = log st ++ [ (INFO, "Extracting the newest news article.");
                     (ERROR, "Error during extraction: "
                             +:+ exn_str (not_found image)) ].
Proof.
  unfold first_result, image. intros H0 Himg.
  unfold extract_news. run_py. rewrite H0, Himg.
  eexists. split; [reflexivity|]. split; [done|].
  cbn [log add_log]. by rewrite <- app_assoc.
Qed.

Lemma extract_news_missing_image_witness :
  let find_first locator :=
    if String.eqb locator first_result then Some (Element "" []) else None in
  exists st',
    extract_news (Example.quiet find_first) "ship" initial
    = (Raise (not_found image), st')
    /\ files st' = files initial
    /\ log st'
       = log initial ++ [ (INFO, "Extracting the newest news article.");
                          (ERROR, "Error during extraction: "
                                  +:+ exn_str (not_found image)) ].
Proof.
  cbn zeta.
  apply (extract_news_missing_image _ "ship" initial (Element "" [])); reflexivity.
Defined.

End MissingImage.

(** ** More on persistence: ordering, several articles, the empty list *)

Section PersistenceEdges.
Import Py Sys Lib NewsScraper ScraperSpec.

(** The sheet holds one header and one row per article, and the header is
    made of the keys of the first article alone: the keys of the other
    articles are not looked at, each gives its values in its own order. *)
Theorem save_to_excel_rows w a rest st :
  excel_works w ->
  exists st' rows,
    save_to_excel w (a :: rest) st = (Ok tt, st')
    /\ files st' !! sheet_path w = Some (Workbook (keys a :: rows))
    /\ rows = values a :: (values <$> rest)
    /\ List.length rows = S (List.length rest)
    /\ forall p, p <> sheet_path w -> files st' !! p = files st !! p.
Proof.
  intros Hxl. destruct (save_to_excel_ok w a rest st Hxl) as (st' & Hs & Hf & _).
  exists st', (values a :: (values <$> rest)).
  split; [done|]. rewrite Hf. split; [apply lookup_insert_eq|].
  split; [done|]. split; [simpl; by rewrite length_fmap|].
  intros p Hp. by rewrite lookup_insert_ne.
Qed.

Lemma save_to_excel_rows_witness :
  exists st' rows,
    save_to_excel (Example.quiet (fun _ => None))
      [ [("Title", VStr "a"); ("Date", VStr "b")]; [("Date", VStr "c")] ] initial
    = (Ok tt, st')
    /\ files st' !! "/home/robot/output/news_data.xlsx"
       = Some (Workbook ([VStr "Title"; VStr "Date"] :: rows))
    /\ rows = [ [VStr "a"; VStr "b"]; [VStr "c"] ]
    /\ List.length rows = 2
    /\ forall p, p <> "/home/robot/output/news_data.xlsx" ->
                 files st' !! p = files initial !! p.
Proof.
  apply (save_to_excel_rows (Example.quiet (fun _ => None))
           [("Title", VStr "a"); ("Date", VStr "b")] [ [("Date", VStr "c")] ] initial).
  repeat split.
Defined.

(** The workbook is saved before it is closed: when closing fails,
    [save_to_excel] raises that error although the sheet is already in the
    file. *)
Theorem save_to_excel_close_failure w a rest st e :
  create_workbook_error w = None ->
  append_rows_error w = None ->
  save_workbook_error w = None ->
  close_workbook_error w = Some e ->
  exists st',
    save_to_excel w (a :: rest) st = (Raise e, st')
    /\ files st'
       = <[sheet_path w := Workbook (keys a :: (values <$> a :: rest))]> (files st)
    /\ log st'
       = log st ++ [ (INFO, "Saving article data to Excel file.");
                     (ERROR, "Error saving data to Excel: " +:+ exn_str e) ].
Proof.
  intros Hc Happ Hs Hcl. unfold save_to_excel. run_py.
  rewrite Hc, Happ. cbn [wb_path wb_rows].
  rewrite append_articles_ok by done. cbn [wb_path wb_rows]. rewrite Hs, Hcl.
  eexists. split; [reflexivity|]. split; [done|].
  cbn [log add_log write_file]. by rewrite <- app_assoc.
Qed.

Lemma save_to_excel_close_failure_witness :
  let w := {| cwd := "/home/robot";
              open_browser_error := None; click_error := None;
              input_error := None; press_error := None;
              find := fun _ => None;
              go_to_error := fun _ => None; screenshot_error := fun _ => None;
              create_workbook_error := None; append_rows_error := None;
              save_workbook_error := None;
              close_workbook_error := Some (LibraryError "cannot close");
     close_browser_error := None; bracketed_host_error := fun _ => None |} in
  exists st',
    save_to_excel w [ [("Title", VStr "a")] ] initial
    = (Raise (LibraryError "cannot close"), st')
    /\ files st'
       = {[ "/home/robot/output/news_data.xlsx"
            := Workbook [ [VStr "Title"]; [VStr "a"] ] ]}
    /\ log st'
       = [ (INFO, "Saving article data to Excel file.");
           (ERROR, "Error saving data to Excel: cannot close") ].
Proof.
  cbn zeta.
  refine (save_to_excel_close_failure _ [("Title", VStr "a")] [] initial
            (LibraryError "cannot close") _ _ _ _); reflexivity.
Defined.

(** With no article, the workbook is created first and [articles[0]] then
    raises [IndexError]; the error is logged and raised again, and no file is
    written. *)
Theorem save_to_excel_empty w st :
  exists e st',
    save_to_excel w [] st = (Raise e, st')
    /\ files st' = files st
    /\ match create_workbook_error w with
       | Some e' => e = e'
       | None => e = IndexError "list index out of range"
       end
    /\ log st'
       = log st ++ [ (INFO, "Saving article data to Excel file.");
                     (ERROR, "Error saving data to Excel: " +:+ exn_str e) ].
Proof.
  unfold save_to_excel. run_py.
  destruct (create_workbook_error w) as [e'|];
    (eexists _, _; split; [reflexivity|]; split; [done|]; split; [done|];
     cbn [log add_log]; by rewrite <- app_assoc).
Qed.

End PersistenceEdges.

(** ** More on the image step: what it writes, blank values, late failures *)

Section ImageEdges.
Import Py Sys Lib NewsScraper Url UrlSpec.

(** Whatever the URL and the world, the image step prints nothing and
    writes at most one file: when it returns a name, the name has no [/], the
    browser shows the resolved URL and the one file written is the screenshot
    of that page under the output directory; when it returns [None], no file
    is written. *)
Theorem download_image_effect w url st :
  exists name st',
    download_image w url st = (Ok name, st')
    /\ stdout st' = stdout st
    /\ match name with
       | None => files st' = files st
       | Some n =>
           contains_char "/" n = false
           /\ exists actual,
                location st' = Some actual
                /\ n = PyStr.last_piece (PyStr.split "/" actual)
                /\ files st'
                   = <[OsPath.join (Config.OUTPUT_DIR w) n := Screenshot (Some actual)]>
                       (files st)
       end.
Proof.
  unfold download_image. run_py.
  destruct url as [[|c url]|];
    [eexists _, _; split; [reflexivity|done]| |eexists _, _; split; [reflexivity|done]].
  destruct (urlparse_query (String c url)) as [q|e];
    [|eexists _, _; split; [reflexivity|done]].
  host_check; [eexists _, _; split; [reflexivity|done]| |];
    (destruct (parse_qs q !! "url") as [[|v more]|];
       [eexists _, _; split; [reflexivity|done]|
       |eexists _, _; split; [reflexivity|done]];
     destruct (go_to_error w (unquote v)); [eexists _, _; split; [reflexivity|done]|];
     destruct (OsPath.endswith_sep _); [eexists _, _; split; [reflexivity|done]|];
     destruct (screenshot_error w _); [eexists _, _; split; [reflexivity|done]|];
     eexists _, _; split; [reflexivity|]; split; [done|]; split;
       [apply split_last_piece|exists (unquote v); done]).
Qed.

Lemma contains_char_app c a b : contains_char c (a +:+ String c b) = true.
Proof.
  induction a as [|d a IH].
  - rewrite app_empty_l. simpl. by rewrite Ascii.eqb_refl.
  - rewrite app_String. simpl. by rewrite IH, orb_true_r.
Qed.

(** A [url] parameter whose value is blank counts as no parameter: when
    every field of the query either has no [=] or has nothing after its first
    [=], the image step returns [None] and writes no file. *)
Theorem download_image_blank_values w url q st :
  urlparse_query url = Ok q ->
  List.Forall
    (fun field =>
       contains_char "=" field = false
       \/ exists name, field = name +:+ "=" /\ contains_char "=" name = false)
    (PyStr.split "&" q) ->
  exists st', download_image w (Some url) st = (Ok None, st') /\ files st' = files st.
Proof.
  intros Hq Hblank. apply (download_image_no_parameter w url q); [done|].
  unfold no_url_parameter. eapply List.Forall_impl; [|exact Hblank].
  intros field Hf r (name & -> & Hname & _ & Hr).
  destruct Hf as [Hf|(name' & Hf & Hname')].
  - change (name +:+ "=" +:+ r) with (name +:+ String "=" r) in Hf.
    by rewrite contains_char_app in Hf.
  - assert (H1 : PyStr.split_once "=" (name +:+ "=" +:+ r) = Some (name, r))
      by by apply split_once_spec.
    assert (H2 : PyStr.split_once "=" (name' +:+ "=") = Some (name', EmptyString))
      by by apply split_once_spec.
    rewrite Hf, H2 in H1. by injection H1 as _ <-.
Qed.

Lemma download_image_blank_values_witness :
  urlparse_query "https://relay.example/img?url=&w=" = Ok "url=&w="
  /\ exists st',
       download_image (Example.quiet (fun _ => None))
         (Some "https://relay.example/img?url=&w=") initial = (Ok None, st')
       /\ files st' = files initial.
Proof.
  split; [reflexivity|].
  apply (download_image_blank_values _ "https://relay.example/img?url=&w=" "url=&w=");
    [reflexivity|].
  apply List.Forall_cons; [right; by exists "url"|].
  apply List.Forall_cons; [right; by exists "w"|].
  apply List.Forall_nil.
Defined.

(** When the page of the resolved URL loads and the screenshot then fails,
    the image step returns [None] and writes no file, but the browser stays
    on the image page (for an ASCII URL that [urlparse] accepts, both
    decodings staying in ASCII). *)
Theorem download_image_screenshot_fails w url q raw e st :
  url <> EmptyString ->
  PyStr.is_ascii url = true ->
  urlparse_query url = Ok q ->
  ScraperSpec.accepted w url ->
  url_parameter q raw ->
  let actual := unquote (decode_component raw) in
  let name := PyStr.last_piece (PyStr.split "/" actual) in
  PyStr.is_ascii (decode_component raw) = true ->
  PyStr.is_ascii actual = true ->
  name <> EmptyString ->
  go_to_error w actual = None ->
  screenshot_error w (OsPath.join (Config.OUTPUT_DIR w) name) = Some e ->
  exists st',
    download_image w (Some url) st = (Ok None, st')
    /\ files st' = files st
    /\ location st' = Some actual
    /\ log st'
       = log st ++ [ (INFO, "Attempting to download image from URL: " +:+ url);
                     (ERROR, "Error downloading image: " +:+ exn_str e) ].
Proof.
  intros Hne _ Hq Hacc [more Hurl]%parse_qs_url actual name _ _ Hname Hgo Hshot.
  assert (Hdir : OsPath.endswith_sep (OsPath.join (Config.OUTPUT_DIR w) name) = false).
  { apply endswith_sep_join; [done|]. apply split_last_piece. }
  destruct url as [|c url]; [done|].
  unfold download_image. run_py. rewrite Hq.
  host_check; [by rewrite Hacc in Hhost| |];
    (rewrite Hurl; fold actual; rewrite Hgo; fold name; rewrite Hdir, Hshot;
     eexists; split; [reflexivity|]; split; [done|]; split; [done|];
     cbn [log add_log set_browser format_url]; by rewrite <- app_assoc).
Qed.

Lemma download_image_screenshot_fails_witness :
  let w := {| cwd := "/home/robot";
              open_browser_error := None; click_error := None;
              input_error := None; press_error := None;
              find := fun _ => None;
              go_to_error := fun _ => None;
              screenshot_error := fun _ => Some (LibraryError "disk full");
              create_workbook_error := None; append_rows_error := None;
              save_workbook_error := None; close_workbook_error := None;
              close_browser_error := None; bracketed_host_error := fun _ => None |} in
  exists st',
    download_image w (Some Example.relay_url) initial = (Ok None, st')
    /\ files st' = files initial
    /\ location st' = Some "https://cdn.example/photo.jpg"
    /\ log st'
       = [ (INFO, "Attempting to download image from URL: " +:+ Example.relay_url);
           (ERROR, "Error downloading image: disk full") ].
Proof.
  cbn zeta.
  refine (download_image_screenshot_fails _ Example.relay_url
            "url=https%3A%2F%2Fcdn.example%2Fphoto.jpg"
            "https%3A%2F%2Fcdn.example%2Fphoto.jpg" (LibraryError "disk full") initial
            _ _ _ _ _ _ _ _ _ _); try reflexivity; try discriminate.
  exists [], "url=https%3A%2F%2Fcdn.example%2Fphoto.jpg", [].
  split; [reflexivity|]. split; [|constructor].
  exists "url". repeat split. discriminate.
Defined.

Lemma split_trailing_sep dir :
  exists p rest,
    PyStr.split "/" (dir +:+ "/") = p :: rest
    /\ rest <> [] /\ List.last rest EmptyString = EmptyString.
Proof.
  induction dir as [|c dir (p & rest & Hs & Hrest & Hlast)].
  - by exists EmptyString, [EmptyString].
  - rewrite app_String. cbn [PyStr.split]. rewrite Hs.
    destruct (Ascii.eqb c "/").
    + exists EmptyString, (p :: rest). split; [done|]. split; [done|].
      destruct rest; [done|]. done.
    + exists (String c p), rest. done.
Qed.

Lemma output_dir_file w :
  OsPath.endswith_sep (OsPath.join (Config.OUTPUT_DIR w) EmptyString) = true.
Proof.
  assert (Hout : OsPath.endswith_sep (Config.OUTPUT_DIR w) = false)
    by by apply endswith_sep_join.
  assert (Hne : Config.OUTPUT_DIR w <> EmptyString).
  { unfold Config.OUTPUT_DIR, OsPath.join. destruct (cwd w) as [|c a]; [done|].
    destruct (OsPath.endswith_sep (String c a)); by rewrite app_String. }
  unfold OsPath.join. destruct (Config.OUTPUT_DIR w) as [|c a]; [done|].
  rewrite Hout. rewrite endswith_sep_app; done.
Qed.

(** A resolved URL that ends with [/] has an empty last piece: the path of
    the screenshot is then the output directory itself, the screenshot fails,
    and the image step returns [None] with no file written, the browser being
    left on the page it was sent to (for an ASCII URL that [urlparse] accepts,
    both decodings staying in ASCII). *)
Theorem download_image_trailing_slash w url q raw dir st :
  url <> EmptyString ->
  PyStr.is_ascii url = true ->
  urlparse_query url = Ok q ->
  ScraperSpec.accepted w url ->
  url_parameter q raw ->
  PyStr.is_ascii (decode_component raw) = true ->
  PyStr.is_ascii (dir +:+ "/") = true ->
  unquote (decode_component raw) = dir +:+ "/" ->
  go_to_error w (dir +:+ "/") = None ->
  PyStr.last_piece (PyStr.split "/" (dir +:+ "/")) = EmptyString
  /\ exists st',
       download_image w (Some url) st = (Ok None, st')
       /\ files st' = files st
       /\ location st' = Some (dir +:+ "/").
Proof.
  intros Hne _ Hq Hacc [more Hurl]%parse_qs_url _ _ Hdir Hgo.
  assert (Hname : PyStr.last_piece (PyStr.split "/" (dir +:+ "/")) = EmptyString).
  { unfold PyStr.last_piece.
    destruct (split_trailing_sep dir) as (p & rest & -> & Hrest & Hlast).
    destruct rest; [done|]. exact Hlast. }
  split; [done|].
  destruct url as [|c url]; [done|].
  unfold download_image. run_py. rewrite Hq.
  host_check; [by rewrite Hacc in Hhost| |];
    (rewrite Hurl, Hdir, Hgo, Hname, output_dir_file;
     eexists; split; [reflexivity|]; done).
Qed.

Lemma download_image_trailing_slash_witness :
  PyStr.last_piece (PyStr.split "/" ("https://cdn.example/pics" +:+ "/")) = EmptyString
  /\ exists st',
       download_image (Example.quiet (fun _ => None))
         (Some "https://relay.example/img?url=https%3A%2F%2Fcdn.example%2Fpics%2F") initial
       = (Ok None, st')
       /\ files st' = files initial
       /\ location st' = Some ("https://cdn.example/pics" +:+ "/").
Proof.
  refine (download_image_trailing_slash (Example.quiet (fun _ => None))
            "https://relay.example/img?url=https%3A%2F%2Fcdn.example%2Fpics%2F"
            "url=https%3A%2F%2Fcdn.example%2Fpics%2F"
            "https%3A%2F%2Fcdn.example%2Fpics%2F" "https://cdn.example/pics" initial
            _ _ _ _ _ _ _ _ _); try reflexivity; try discriminate.
  exists [], "url=https%3A%2F%2Fcdn.example%2Fpics%2F", [].
  split; [reflexivity|]. split; [|constructor].
  exists "url". repeat split. discriminate.
Defined.

End ImageEdges.

(** ** More on the phrase count: the empty phrase, a bound, letter case *)

Section CountEdges.
Import PyStr CountSpec.

(** For the empty search phrase [str.count] answers the length plus one, so
    on ASCII texts the count is the two lengths plus two. *)
Theorem count_search_phrases_empty_phrase title description :
  is_ascii title = true ->
  is_ascii description = true ->
  Count.count_search_phrases title description EmptyString
  = String.length title + String.length description + 2.
Proof.
  intros _ _. unfold Count.count_search_phrases. simpl. rewrite !length_lower. lia.
Qed.

Lemma count_search_phrases_empty_phrase_witness :
  Count.count_search_phrases "Ship" "ahoy!" EmptyString
  = String.length "Ship" + String.length "ahoy!" + 2.
Proof.
  apply (count_search_phrases_empty_phrase "Ship" "ahoy!"); reflexivity.
Defined.

Lemma disjoint_occurrences_fit p t lo ps :
  disjoint_occurrences p t lo ps ->
  ps <> [] ->
  lo + List.length ps * String.length p <= String.length t.
Proof.
  revert lo. induction ps as [|q ps IH]; intros lo H Hne; [done|].
  destruct H as (Hq & Ho & Hps).
  unfold occurs_at in Ho. apply andb_prop in Ho as [Ho%Nat.leb_le _].
  destruct ps as [|q' ps].
  - simpl. lia.
  - assert (Hfit : q + String.length p
                   + List.length (q' :: ps) * String.length p <= String.length t)
      by by apply IH.
    change (List.length (q :: q' :: ps)) with (S (List.length (q' :: ps))). lia.
Qed.

Lemma count_lower_fit s p :
  p <> EmptyString ->
  count (lower s) (lower p) * String.length p <= String.length s.
Proof.
  intros Hp. destruct (count_lower_maximal s p Hp) as [(ps & Hps & <-) _].
  destruct ps as [|q ps]; [simpl; lia|].
  assert (Hne : q :: ps <> []) by done.
  pose proof (disjoint_occurrences_fit p s 0 (q :: ps) Hps Hne). lia.
Qed.

(** The occurrences counted do not overlap, so on ASCII texts they fit in
    the texts: the count times the length of the phrase is at most the length
    of the title plus that of the description, and a phrase longer than both
    texts is counted 0 times. *)
Theorem count_search_phrases_bound title description phrase :
  is_ascii title = true ->
  is_ascii description = true ->
  is_ascii phrase = true ->
  phrase <> EmptyString ->
  Count.count_search_phrases title description phrase * String.length phrase
  <= String.length title + String.length description
  /\ (String.length title < String.length phrase ->
      String.length description < String.length phrase ->
      Count.count_search_phrases title description phrase = 0).
Proof.
  intros _ _ _ Hp. unfold Count.count_search_phrases.
  pose proof (count_lower_fit title phrase Hp).
  pose proof (count_lower_fit description phrase Hp).
  split; [lia|]. intros Ht Hd.
  destruct (count (lower title) (lower phrase)); [|simpl in *; lia].
  destruct (count (lower description) (lower phrase)); [done|simpl in *; lia].
Qed.

Lemma count_search_phrases_bound_witness :
  "ship" <> EmptyString
  /\ Count.count_search_phrases "Ship sinks" "shipshape" "ship" * String.length "ship"
     <= String.length "Ship sinks" + String.length "shipshape".
Proof.
  split; [discriminate|].
  apply (count_search_phrases_bound "Ship sinks" "shipshape" "ship");
    [reflexivity..|discriminate].
Defined.

Lemma eq_ci_lower a b : eq_ci a b = true <-> lower a = lower b.
Proof.
  revert b. induction a as [|c a IH]; intros [|d b]; simpl; try done.
  rewrite andb_true_iff, same_letter_lower, Ascii.eqb_eq, IH.
  split; [by intros [-> ->]|]. by intros [= -> ->].
Qed.

(** The count does not depend on letter case: texts and phrases that are
    the same up to the case of their ASCII letters give the same count. *)
Theorem count_search_phrases_case title title' description description' phrase phrase' :
  eq_ci title title' = true ->
  eq_ci description description' = true ->
  eq_ci phrase phrase' = true ->
  Count.count_search_phrases title description phrase
  = Count.count_search_phrases title' description' phrase'.
Proof.
  intros Ht%eq_ci_lower Hd%eq_ci_lower Hp%eq_ci_lower.
  unfold Count.count_search_phrases. by rewrite Ht, Hd, Hp.
Qed.

Lemma count_search_phrases_case_witness :
  Count.count_search_phrases "Ship AHOY" "a ship" "ship"
  = Count.count_search_phrases "SHIP ahoy" "A Ship" "SHIP".
Proof.
  apply (count_search_phrases_case "Ship AHOY" "SHIP ahoy" "a ship" "A Ship" "ship" "SHIP");
    reflexivity.
Defined.

End CountEdges.

(** ** More on monetary mentions: a match on one side is enough *)

Section MoneyEdges.
Import Py Sys NewsScraper.

Lemma found_in_app r (s1 s2 s3 : string) :
  Re.found_in r s2 -> Re.found_in r (s1 +:+ s2 +:+ s3).
Proof.
  intros (before & m & after & -> & Hm).
  exists (s1 +:+ before), m, (after +:+ s3). split; [|done].
  by rewrite !app_assoc_str.
Qed.

(** A mention of money in the title alone, or in the description alone, is
    always found in the two together: if [check_for_money] answers [True] for
    the title with an empty description, or for the description with an empty
    title, it answers [True] for the pair. *)
Theorem check_for_money_one_side title description st :
  (check_for_money title "" st).1 = Ok true
  \/ (check_for_money "" description st).1 = Ok true ->
  (check_for_money title description st).1 = Ok true.
Proof.
  rewrite !check_for_money_result. intros H. f_equal.
  apply any_pattern_spec.
  destruct H as [H|H].
  - assert (H' : any_pattern money_patterns (title +:+ " " +:+ EmptyString) = true)
      by congruence.
    apply any_pattern_spec in H' as (r & Hin & Hf). exists r. split; [done|].
    replace (title +:+ " " +:+ description)
      with (EmptyString +:+ (title +:+ " " +:+ EmptyString) +:+ description).
    + by apply found_in_app.
    + by rewrite app_empty_l, !app_assoc_str, app_empty_l.
  - assert (H' : any_pattern money_patterns (EmptyString +:+ " " +:+ description) = true)
      by congruence.
    apply any_pattern_spec in H' as (r & Hin & Hf). exists r. split; [done|].
    replace (title +:+ " " +:+ description)
      with (title +:+ (EmptyString +:+ " " +:+ description) +:+ EmptyString).
    + by apply found_in_app.
    + by rewrite app_empty_r, app_empty_l.
Qed.

Lemma check_for_money_one_side_witness :
  (check_for_money "Fare rises to $3" "Riders object" initial).1 = Ok true.
Proof.
  apply (check_for_money_one_side "Fare rises to $3" "Riders object" initial).
  left. reflexivity.
Defined.

End MoneyEdges.

(** ** Where the files go ([Config], [os.path.join]) *)

Section OutputPaths.
Import Sys.

Lemma join_relative (a b : string) :
  a <> EmptyString ->
  OsPath.endswith_sep a = false ->
  PyStr.startswith b "/" = false ->
  OsPath.join a b = a +:+ "/" +:+ b.
Proof.
  intros Ha Hsep Hb. unfold OsPath.join.
  destruct a as [|c a]; [done|]. rewrite Hsep.
  destruct b as [|c' b]; [done|].
  cbn [PyStr.startswith] in Hb. rewrite andb_true_r in Hb.
  destruct c' as [[] [] [] [] [] [] [] []]; done.
Qed.

(** For a working directory that is not empty and does not end with [/],
    the output directory is [cwd/output], the log file and the sheet are the
    files [scraper.log] and [news_data.xlsx] in it, and an image whose name
    has no [/] is saved in it under that name. *)
Theorem output_paths w :
  cwd w <> EmptyString ->
  OsPath.endswith_sep (cwd w) = false ->
  Config.OUTPUT_DIR w = cwd w +:+ "/output"
  /\ Config.LOG_FILE w = cwd w +:+ "/output/scraper.log"
  /\ OsPath.join (Config.OUTPUT_DIR w) "news_data.xlsx"
     = cwd w +:+ "/output/news_data.xlsx"
  /\ forall name,
       Url.contains_char "/" name = false ->
       OsPath.join (Config.OUTPUT_DIR w) name = cwd w +:+ "/output/" +:+ name.
Proof.
  intros Hne Hsep.
  assert (Hout : Config.OUTPUT_DIR w = cwd w +:+ "/output").
  { unfold Config.OUTPUT_DIR. by rewrite join_relative. }
  assert (Hjoin : forall b, PyStr.startswith b "/" = false ->
            OsPath.join (Config.OUTPUT_DIR w) b = cwd w +:+ "/output/" +:+ b).
  { intros b Hb. rewrite Hout, join_relative.
    - by rewrite app_assoc_str.
    - intros [_ [=]]%app_eq_empty.
    - by rewrite endswith_sep_app.
    - done. }
  split; [done|]. split; [by apply Hjoin|]. split; [by apply Hjoin|].
  intros name Hname. apply Hjoin.
  destruct name as [|c name]; [done|].
  cbn [Url.contains_char] in Hname. apply orb_false_elim in Hname as [Hc _].
  cbn [PyStr.startswith]. by rewrite Ascii.eqb_sym, Hc.
Qed.

Lemma output_paths_witness :
  OsPath.join (Config.OUTPUT_DIR (Example.quiet (fun _ => None))) "news_data.xlsx"
  = "/home/robot" +:+ "/output/news_data.xlsx".
Proof.
  destruct (output_paths (Example.quiet (fun _ => None))) as (_ & _ & H & _);
    [discriminate|reflexivity|exact H].
Defined.

End OutputPaths.

(** ** The run from end to end *)

Section RunEdges.
Import Py Sys Lib NewsScraper ScraperSpec.

Lemma download_image_prints_nothing w url st :
  stdout (download_image w url st).2 = stdout st.
Proof.
  unfold download_image. run_py.
  destruct url as [[|c url]|]; [done| |done].
  destruct (Url.urlparse_query (String c url)) as [q|e]; [|done].
  host_check; [done| |];
    (destruct (Url.parse_qs q !! "url") as [[|v more]|]; [done| |done];
     destruct (go_to_error w (Url.unquote v)); [done|];
     destruct (OsPath.endswith_sep _); [done|];
     by destruct (screenshot_error w _)).
Qed.

(** Extraction on a page with its five elements and a working spreadsheet
    library: the state it leaves. *)
Lemma extract_news_state w phrase st e0 img t d dt :
  find w first_result = Some e0 ->
  find w image = Some img ->
  find w title = Some t ->
  find w description = Some d ->
  find w date = Some dt ->
  excel_works w ->
  exists name st1 st',
    download_image w (assoc "src" (el_attrs img))
      (add_log INFO "Extracting the newest news article." st) = (Ok name, st1)
    /\ extract_news w phrase st = (Ok tt, st')
    /\ files st'
       = <[sheet_path w :=
             Workbook [header;
                       article_row phrase (el_text t) (el_text dt) (el_text d) name]]>
           (files st1)
    /\ stdout st'
       = stdout st ++ ["Progress: 3/3 steps completed."; "Progress: 3/3 steps completed."].
Proof.
  unfold first_result, image, title, description, date.
  intros H0 Himg Ht Hd Hdt (Hc & Happ & Hs & Hcl).
  destruct (download_image_total w (assoc "src" (el_attrs img))
              (add_log INFO "Extracting the newest news article." st))
    as (name & st1 & Hdl).
  pose proof (download_image_prints_nothing w (assoc "src" (el_attrs img))
                (add_log INFO "Extracting the newest news article." st)) as Hout1.
  rewrite Hdl in Hout1. cbn [snd stdout add_log] in Hout1.
  exists name, st1.
  unfold extract_news, save_to_excel, progress_indicator. run_py.
  rewrite H0, Himg, Ht, Hd, Hdt, Hdl.
  pose proof (check_for_money_result (el_text t) (el_text d) st1) as Hr.
  destruct (check_for_money_state (el_text t) (el_text d) st1) as (_ & _ & Hf & Hout2).
  destruct (check_for_money (el_text t) (el_text d) st1) as [r st2].
  cbn [fst snd] in Hr, Hf, Hout2. subst r.
  rewrite Hc, Happ. cbn [wb_path wb_rows append_articles].
  run_py. rewrite Happ. cbn [wb_path wb_rows]. rewrite Hs, Hcl.
  eexists. split; [reflexivity|]. split; [reflexivity|].
  cbn [files stdout add_log add_stdout write_file]. rewrite Hf, Hout2, Hout1.
  split; [done|]. by rewrite <- app_assoc.
Qed.

(** When the browser, the page and the spreadsheet library all work and
    closing the browser raises nothing, [run] ends normally with the sheet
    saved (the header and the row of the article read from the page) and the
    browser closed. *)
Theorem run_success w phrase st e0 img t d dt :
  open_browser_error w = None ->
  close_browser_error w = None ->
  click_error w = None -> input_error w = None -> press_error w = None ->
  find w first_result = Some e0 ->
  find w image = Some img ->
  find w title = Some t ->
  find w description = Some d ->
  find w date = Some dt ->
  excel_works w ->
  exists image_filename st',
    run w phrase st = (Ok tt, st')
    /\ files st' !! sheet_path w
       = Some (Workbook
                 [header;
                  [VStr (el_text t); VStr (el_text dt); VStr (el_text d);
                   image_cell image_filename;
                   VInt (Z.of_nat (Count.count_search_phrases
                                     (el_text t) (el_text d) phrase));
                   VBool (any_pattern money_patterns
                            (el_text t +:+ " " +:+ el_text d))]])
    /\ browser_open st' = false
    /\ location st' = None.
Proof.
  intros Ho Hq Hc Hi Hp H0 Himg Ht Hd Hdt Hxl.
  unfold run, open_site, search_news, progress_indicator. run_py.
  rewrite Ho, Hq, Hc, Hi, Hp.
  match goal with |- context [extract_news w phrase ?s] =>
    destruct (extract_news_state w phrase s e0 img t d dt)
      as (name & st1 & st2 & _ & -> & Hf & _); [done..|]
  end.
  exists name. eexists. split; [reflexivity|].
  cbn [files browser_open location add_log set_browser]. rewrite Hf.
  split; [apply lookup_insert_eq|done].
Qed.

Lemma run_success_witness :
  exists image_filename st',
    run (Example.quiet (Example.page (Some Example.relay_url))) "ship" initial
    = (Ok tt, st')
    /\ files st' !! "/home/robot/output/news_data.xlsx"
       = Some (Workbook
                 [header;
                  [VStr "Ship costs $1,200.50"; VStr "Nov. 4"; VStr "A SHIP and a ship";
                   image_cell image_filename; VInt 3; VBool true]])
    /\ browser_open st' = false
    /\ location st' = None.
Proof.
  apply (run_success
           (Example.quiet (Example.page (Some Example.relay_url))) "ship" initial
           (Element "Ship costs $1,200.50 A SHIP and a ship Nov. 4" [])
           (Element "" [("src", Example.relay_url)])
           (Element "Ship costs $1,200.50" [])
           (Element "A SHIP and a ship" [])
           (Element "Nov. 4" [])); try reflexivity.
  repeat split.
Defined.

(** On a successful run the progress lines printed are 1/3, 2/3, 3/3 and
    3/3 again: the last step is announced by [save_to_excel] and once more by
    [extract_news]; the image step and the money check print nothing. *)
Theorem run_progress_lines w phrase st e0 img t d dt :
  open_browser_error w = None ->
  click_error w = None -> input_error w = None -> press_error w = None ->
  find w first_result = Some e0 ->
  find w image = Some img ->
  find w title = Some t ->
  find w description = Some d ->
  find w date = Some dt ->
  excel_works w ->
  stdout (run w phrase st).2
  = stdout st ++ [ "Progress: 1/3 steps completed.";
                   "Progress: 2/3 steps completed.";
                   "Progress: 3/3 steps completed.";
                   "Progress: 3/3 steps completed." ].
Proof.
  intros Ho Hc Hi Hp H0 Himg Ht Hd Hdt Hxl.
  unfold run, open_site, search_news, progress_indicator. run_py.
  rewrite Ho, Hc, Hi, Hp.
  match goal with |- context [extract_news w phrase ?s] =>
    destruct (extract_news_state w phrase s e0 img t d dt)
      as (name & st1 & st2 & _ & -> & _ & Hout); [done..|]
  end.
  destruct (close_browser_error w);
    cbn [snd stdout add_log set_browser]; rewrite Hout;
    cbn [stdout add_log add_stdout set_browser]; by rewrite <- !app_assoc.
Qed.

Lemma run_progress_lines_witness :
  stdout (run (Example.quiet (Example.page None)) "ship" initial).2
  = stdout initial ++ [ "Progress: 1/3 steps completed.";
                        "Progress: 2/3 steps completed.";
                        "Progress: 3/3 steps completed.";
                        "Progress: 3/3 steps completed." ].
Proof.
  apply (run_progress_lines (Example.quiet (Example.page None)) "ship" initial
           (Element "Ship costs $1,200.50 A SHIP and a ship Nov. 4" [])
           (Element "" [])
           (Element "Ship costs $1,200.50" [])
           (Element "A SHIP and a ship" [])
           (Element "Nov. 4" [])); try reflexivity.
  repeat split.
Defined.

(** When the browser cannot be opened, nothing else is tried: the error is
    logged by [open_site] and once more by [run], the browser is closed, no
    file is written, and only the first progress line is printed. *)
Theorem run_open_failure w phrase st e :
  open_browser_error w = Some e ->
  exists st',
    run w phrase st = (Ok tt, st')
    /\ files st' = files st
    /\ browser_open st' = false
    /\ stdout st' = stdout st ++ ["Progress: 1/3 steps completed."]
    /\ log st'
       = log st
         ++ [ (INFO, "Starting the news scraping process...");
              (INFO, "Progress: 1/3 steps completed.");
              (INFO, "Opening site: https://www.latimes.com/");
              (ERROR, "Failed to open site: " +:+ exn_str e);
              (ERROR, "An error occurred during the scraping process: " +:+ exn_str e);
              (INFO, "Browser closed.") ].
Proof.
  intros Ho. unfold run, open_site, progress_indicator. run_py. rewrite Ho.
  eexists. split; [reflexivity|].
  cbn [files browser_open stdout log add_log add_stdout set_browser].
  split; [done|]. split; [done|]. split; [done|].
  by rewrite <- !app_assoc.
Qed.

Lemma run_open_failure_witness :
  let w := {| cwd := "/home/robot";
              open_browser_error := Some (LibraryError "no browser");
              click_error := None; input_error := None; press_error := None;
              find := Example.page None;
              go_to_error := fun _ => None; screenshot_error := fun _ => None;
              create_workbook_error := None; append_rows_error := None;
              save_workbook_error := None; close_workbook_error := None;
     close_browser_error := None; bracketed_host_error := fun _ => None |} in
  exists st',
    run w "ship" initial = (Ok tt, st')
    /\ files st' = files initial
    /\ browser_open st' = false
    /\ stdout st' = stdout initial ++ ["Progress: 1/3 steps completed."]
    /\ log st'
       = log initial
         ++ [ (INFO, "Starting the news scraping process...");
              (INFO, "Progress: 1/3 steps completed.");
              (INFO, "Opening site: https://www.latimes.com/");
              (ERROR, "Failed to open site: " +:+ exn_str (LibraryError "no browser"));
              (ERROR, "An error occurred during the scraping process: "
                      +:+ exn_str (LibraryError "no browser"));
              (INFO, "Browser closed.") ].
Proof.
  cbn zeta.
  refine (run_open_failure _ "ship" initial (LibraryError "no browser") _).
  reflexivity.
Defined.

(** The image is fetched before the sheet is written: when the workbook
    cannot be created, extraction fails with that error, logged by
    [save_to_excel] and once more by [extract_news], and the files are those
    the image step left, the image included if one was saved. *)
Theorem extract_news_persist_failure w phrase st e0 img t d dt e :
  find w first_result = Some e0 ->
  find w image = Some img ->
  find w title = Some t ->
  find w description = Some d ->
  find w date = Some dt ->
  create_workbook_error w = Some e ->
  exists name st1 st',
    download_image w (assoc "src" (el_attrs img))
      (add_log INFO "Extracting the newest news article." st) = (Ok name, st1)
    /\ extract_news w phrase st = (Raise e, st')
    /\ files st' = files st1
    /\ exists earlier,
         log st'
         = earlier ++ [ (ERROR, "Error saving data to Excel: " +:+ exn_str e);
                        (ERROR, "Error during extraction: " +:+ exn_str e) ].
Proof.
  unfold first_result, image, title, description, date.
  intros H0 Himg Ht Hd Hdt Hc.
  destruct (download_image_total w (assoc "src" (el_attrs img))
              (add_log INFO "Extracting the newest news article." st))
    as (name & st1 & Hdl).
  exists name, st1.
  unfold extract_news, save_to_excel. run_py.
  rewrite H0, Himg, Ht, Hd, Hdt, Hdl.
  pose proof (check_for_money_result (el_text t) (el_text d) st1) as Hr.
  destruct (check_for_money_state (el_text t) (el_text d) st1) as (_ & _ & Hf & _).
  destruct (check_for_money (el_text t) (el_text d) st1) as [r st2].
  cbn [fst snd] in Hr, Hf. subst r.
  rewrite Hc. eexists. split; [reflexivity|]. split; [reflexivity|].
  cbn [files log add_log]. split; [exact Hf|].
  exists ((log st2 ++ [(INFO, "Article extracted successfully.")])
          ++ [(INFO, "Saving article data to Excel file.")]).
  by rewrite <- (app_assoc _ [_] [_]).
Qed.

Lemma extract_news_persist_failure_witness :
  let w := {| cwd := "/home/robot";
              open_browser_error := None;
              click_error := None; input_error := None; press_error := None;
              find := Example.page (Some Example.relay_url);
              go_to_error := fun _ => None; screenshot_error := fun _ => None;
              create_workbook_error := Some (LibraryError "read-only");
              append_rows_error := None;
              save_workbook_error := None; close_workbook_error := None;
     close_browser_error := None; bracketed_host_error := fun _ => None |} in
  exists name st1 st',
    download_image w (Some Example.relay_url)
      (add_log INFO "Extracting the newest news article." initial) = (Ok name, st1)
    /\ extract_news w "ship" initial = (Raise (LibraryError "read-only"), st')
    /\ files st' = files st1
    /\ exists earlier,
         log st'
         = earlier ++ [ (ERROR, "Error saving data to Excel: "
                                +:+ exn_str (LibraryError "read-only"));
                        (ERROR, "Error during extraction: "
                                +:+ exn_str (LibraryError "read-only")) ].
Proof.
  cbn zeta.
  refine (extract_news_persist_failure _ "ship" initial
            (Element "Ship costs $1,200.50 A SHIP and a ship Nov. 4" [])
            (Element "" [("src", Example.relay_url)])
            (Element "Ship costs $1,200.50" [])
            (Element "A SHIP and a ship" [])
            (Element "Nov. 4" [])
            (LibraryError "read-only") _ _ _ _ _ _); reflexivity.
Defined.

End RunEdges.

(** ** A match across the title and the description *)

Section MoneyAcross.
Import Py Sys NewsScraper ScraperSpec.

(** The space that joins title and description can take part in a match: a
    title that ends with a digit and a description that starts with
    [dollars] or with [USD] are read as an amount, whatever else they hold. *)
Theorem check_for_money_across title c description st :
  Re.is_digit c = true ->
  (check_for_money (title +:+ String c EmptyString) ("dollars" +:+ description) st).1
  = Ok true
  /\ (check_for_money (title +:+ String c EmptyString) ("USD" +:+ description) st).1
     = Ok true.
Proof.
  intros Hc. rewrite !check_for_money_result.
  split; f_equal; apply any_pattern_spec.
  - exists (Re.Cat (Re.Plus (Re.Sym Re.Digit)) (Re.Word " dollars")).
    split; [simpl; auto|]. apply found_amount_pattern.
    exists title, c, description. split; [|done].
    by rewrite app_assoc_str.
  - exists (Re.Cat (Re.Plus (Re.Sym Re.Digit)) (Re.Word " USD")).
    split; [simpl; auto|]. apply found_amount_pattern.
    exists title, c, description. split; [|done].
    by rewrite app_assoc_str.
Qed.

Lemma check_for_money_across_witness :
  (check_for_money "Flight 370" "dollars and sense" initial).1 = Ok true
  /\ (check_for_money "Flight 370" "USD and sense" initial).1 = Ok true.
Proof.
  apply (check_for_money_across "Flight 37" "0" " and sense" initial).
  reflexivity.
Defined.

End MoneyAcross.
